(** * Educational RAG system: a shallow embedding and its properties

    The Python modules [document_processor], [embedding_storage],
    [rag_query], [main] and [interactive] are embedded as Rocq functions.
    Every call that leaves the program (document loaders, the text
    splitter, the embedding model, the vector store, the HTTP client, the
    file system, the terminal) is a field of a [world] record that says
    what the call answers, and is logged in a trace of [event]s, so that
    "was never called" is a statement about the trace. *)

From Stdlib Require Import ZArith List Ascii String.
From stdpp Require Import base decidable countable strings gmap list pretty.

Local Open Scope string_scope.
Local Open Scope list_scope.
Local Open Scope stdpp_scope.

(** ** Python values, exceptions and the effect monad *)

Module Py.

(** The scalar values that occur in document metadata and in JSON bodies. *)
Inductive value :=
| VStr (s : string)
| VInt (n : Z).

#[global] Instance value_eq_dec : EqDecision value.
Proof. solve_decision. Defined.

#[global] Instance value_countable : Countable value.
Proof.
  refine (inj_countable'
            (λ v, match v with VStr s => inl s | VInt n => inr n end)
            (λ x, match x with inl s => VStr s | inr n => VInt n end) _).
  by intros [].
Defined.

(** A Python [dict] with string keys. *)
Abbreviation dict := (gmap string value).

(** [str(v)], as used by f-string interpolation. *)
Definition str (v : value) : string :=
  match v with
  | VStr s => s
  | VInt n => pretty n
  end.

(** Exceptions.  [except Exception] catches the first constructor only;
    [KeyboardInterrupt] and [SystemExit] derive from [BaseException]. *)
Inductive exn :=
| Exception (cls : string) (msg : string)
| KeyboardInterrupt
| SystemExit (code : Z).

Inductive result (A : Type) :=
| Ok (a : A)
| Raise (e : exn).
Arguments Ok {A} a.
Arguments Raise {A} e.

(** Calls that leave the program, in the order they are made. *)
Inductive event :=
| Print (line : string)
| Input (prompt : string)
| IsDir (path : string)
| DirectoryLoaderLoad (directory glob : string)
| TextSplitterInit (chunk_size chunk_overlap : Z)
| TextSplitterSplit (n_documents : nat)
| HuggingFaceEmbeddingsInit (model_name : string)
| ChromaInit (persist_directory : string)
| ChromaFromDocuments (persist_directory : string) (n_chunks : nat)
| SimilaritySearch (query : string) (k : Z)
| RequestsPost (url model prompt : string)
| PrintHelp.

#[global] Instance event_eq_dec : EqDecision event.
Proof. solve_decision. Defined.

(** A computation yields the events it caused and a value or an exception. *)
Definition M (A : Type) : Type := list event * result A.

Definition ret {A} (a : A) : M A := ([], Ok a).

Definition bind {A B} (m : M A) (k : A → M B) : M B :=
  match m with
  | (t, Ok a) => let '(t', r) := k a in (t ++ t', r)
  | (t, Raise e) => (t, Raise e)
  end.

Definition raise {A} (e : exn) : M A := ([], Raise e).

(** One external call: log it, then answer as the world does. *)
Definition call {A} (ev : event) (answer : result A) : M A := ([ev], answer).

Definition print (line : string) : M unit := call (Print line) (Ok tt).

(** [try: body except Exception as e: handler(e)]. *)
Definition try_except {A} (body : M A) (handler : exn → M A) : M A :=
  match body with
  | (t, Raise (Exception cls msg)) =>
      let '(t', r) := handler (Exception cls msg) in (t ++ t', r)
  | other => other
  end.

(** [str(e)] for an exception. *)
Definition exn_str (e : exn) : string :=
  match e with
  | Exception _ msg => msg
  | KeyboardInterrupt => ""
  | SystemExit code => pretty code
  end.

(** A pure step that may raise. *)
Definition lift {A} (r : result A) : M A := ([], r).

Declare Scope py_scope.
Delimit Scope py_scope with py.
Notation "x <- m ;; k" := (bind m (fun x => k))
  (at level 20, m at level 99, k at level 200) : py_scope.
Notation "' x <- m ;; k" := (bind m (fun x => k))
  (at level 20, x pattern, m at level 99, k at level 200) : py_scope.
Notation "m ;; k" := (bind m (fun _ => k))
  (at level 100, k at level 200, right associativity) : py_scope.

Definition trace {A} (m : M A) : list event := fst m.
Definition outcome {A} (m : M A) : result A := snd m.

(** Exit status of the interpreter after running a script body: 0 when
    it runs to its end, the code of a [SystemExit], 130 on an interrupt
    and 1 on any other uncaught exception. *)
Definition exit_status {A} (m : M A) : Z :=
  match outcome m with
  | Ok _ => 0
  | Raise (SystemExit code) => code
  | Raise KeyboardInterrupt => 130
  | Raise (Exception _ _) => 1
  end.

(** [sep.join(parts)]. *)
Fixpoint join (sep : string) (parts : list string) : string :=
  match parts with
  | [] => ""
  | [p] => p
  | p :: rest => p +:+ sep +:+ join sep rest
  end.

Fixpoint has_slash (p : string) : bool :=
  match p with
  | EmptyString => false
  | String c rest => if Ascii.eqb c "/" then true else has_slash rest
  end.

(** [posixpath.basename(p)] is [p[p.rfind('/') + 1:]]: what follows the
    last slash, or all of [p] when it has none. *)
Fixpoint basename_str (p : string) : string :=
  match p with
  | EmptyString => EmptyString
  | String c rest =>
      if has_slash rest then basename_str rest
      else if Ascii.eqb c "/" then rest else String c rest
  end.

(** [os.path.basename] accepts a path-like argument and raises
    [TypeError] on an [int]. *)
Definition basename (v : value) : result string :=
  match v with
  | VStr p => Ok (basename_str p)
  | VInt _ =>
      Raise (Exception "TypeError"
               "expected str, bytes or os.PathLike object, not int")
  end.

(** The error that [basename] raises. *)
Definition type_error : exn :=
  Exception "TypeError" "expected str, bytes or os.PathLike object, not int".

End Py.
Import Py.
Local Open Scope py_scope.

(** ** Documents and the outside world *)

(** A langchain [Document] read as a value: its text and its metadata.
    Metadata values are the strings and integers that the loaders and
    [split_documents] put there. *)
Record Document := {
  page_content : string;
  metadata : dict;
}.

(** A [Document] object whose metadata dict lives in a heap, for the code
    that assigns into [chunk.metadata]: two objects that hold the same
    address share one dict. *)
Abbreviation loc := positive.
Abbreviation heap := (gmap loc dict).

Record DocumentObj := {
  obj_page_content : string;
  obj_metadata : loc;
}.

(** A similarity score is a Python float that the program never inspects;
    it is carried as its IEEE-754 binary64 bit pattern. *)
Definition float := Z.

Inductive loader_cls := PyPDFLoader | TextLoader.

(** The body of an HTTP response as [requests] exposes it: [json()] raises
    on a body that is not JSON, and otherwise returns the decoded value,
    a dict for a JSON object. *)
Inductive json_body :=
| JObject (fields : dict)
| JArray
| JString
| JInt
| JFloat
| JBool
| JNull.

Record Response := {
  status_code : Z;
  text : string;
  json : result json_body;
}.

(** What each external collaborator answers. *)
Record world := {
  (** [DirectoryLoader(directory, glob, loader_cls).load()] *)
  directory_loader_load : string → string → loader_cls → result (list Document);
  (** the error, if any, raised by the text splitter's constructor *)
  text_splitter_check : Z → Z → list string → option exn;
  (** [text_splitter.split_documents(documents)]: the new chunk objects
      and the heap that holds their metadata dicts *)
  text_splitter_split :
    Z → Z → list string → list Document → result (heap * list DocumentObj);
  (** [HuggingFaceEmbeddings(model_name=...)] *)
  hf_embeddings_check : string → option exn;
  (** [Chroma(persist_directory=..., embedding_function=...)] *)
  chroma_check : string → option exn;
  (** [Chroma.from_documents(documents, embedding, persist_directory)] *)
  chroma_from_documents : list Document → string → option exn;
  (** [vectorstore.similarity_search_with_score(query, k)] *)
  similarity_search_with_score :
    string → string → Z → result (list (Document * float));
  (** [requests.post(url, json={model, prompt, stream: False})] *)
  requests_post : string → string → string → result Response;
  (** [os.path.isdir(path)] *)
  isdir : string → bool;
}.

Definition check (o : option exn) : result unit :=
  match o with
  | Some e => Raise e
  | None => Ok tt
  end.

(** ** document_processor.py *)

Module DocumentProcessor.

(** Building the two [DirectoryLoader]s touches nothing; the files are
    read by [load()]. *)
Definition load_documents (w : world) (directory_path : string)
  : M (list Document) :=
  let documents := [] in
  documents <-
    try_except
      (loaded <- call (DirectoryLoaderLoad directory_path "**/*.pdf")
                   (directory_loader_load w directory_path "**/*.pdf" PyPDFLoader) ;;
       print "Loaded PDF documents" ;;
       ret (documents ++ loaded))
      (λ e, print ("Error loading PDF files: " +:+ exn_str e) ;;
            ret documents) ;;
  documents <-
    try_except
      (loaded <- call (DirectoryLoaderLoad directory_path "**/*.txt")
                   (directory_loader_load w directory_path "**/*.txt" TextLoader) ;;
       print "Loaded text documents" ;;
       ret (documents ++ loaded))
      (λ e, print ("Error loading text files: " +:+ exn_str e) ;;
            ret documents) ;;
  ret documents.

(** [chunk.metadata], read through the heap.  Every object the splitter
    returns has its dict in the heap returned with it; the default only
    makes the function total. *)
Definition get_metadata (h : heap) (chunk : DocumentObj) : dict :=
  default ∅ (h !! obj_metadata chunk).

(** [chunk.metadata[key] = v]. *)
Definition set_metadata (h : heap) (chunk : DocumentObj) (key : string)
    (v : value) : heap :=
  <[obj_metadata chunk := <[key := v]> (get_metadata h chunk)]> h.

(** The loop [for i, chunk in enumerate(chunks)], from index [i] on. *)
Fixpoint stamp_chunks (i : nat) (chunks : list DocumentObj) (h : heap)
  : result heap :=
  match chunks with
  | [] => Ok h
  | chunk :: rest =>
      let named :=
        match get_metadata h chunk !! "source" with
        | Some source =>
            match basename source with
            | Ok file_name => Ok (set_metadata h chunk "file_name" (VStr file_name))
            | Raise e => Raise e
            end
        | None => Ok h
        end in
      match named with
      | Ok h' =>
          stamp_chunks (S i) rest
            (set_metadata h' chunk "chunk_id" (VInt (Z.of_nat i)))
      | Raise e => Raise e
      end
  end.

(** The heap a successful run of the loop leaves behind. *)
Definition outcome_heap (r : result heap) : option heap :=
  match r with
  | Ok h => Some h
  | Raise _ => None
  end.

(** The returned list of chunk objects, read off the final heap. *)
Definition snapshot (h : heap) (chunk : DocumentObj) : Document :=
  {| page_content := obj_page_content chunk;
     metadata := get_metadata h chunk |}.

Definition chunk_id (chunk : Document) : option value :=
  metadata chunk !! "chunk_id".

Definition separators : list string :=
  [String "010" (String "010" ""); String "010" ""; "."; " "; ""].

Definition split_documents (w : world) (documents : list Document)
    (chunk_size chunk_overlap : Z) : M (list Document) :=
  call (TextSplitterInit chunk_size chunk_overlap)
    (check (text_splitter_check w chunk_size chunk_overlap separators)) ;;
  '(h, chunks) <-
    call (TextSplitterSplit (length documents))
      (text_splitter_split w chunk_size chunk_overlap separators documents) ;;
  h' <- lift (stamp_chunks 0 chunks h) ;;
  ret (snapshot h' <$> chunks).

Definition process_directory (w : world) (directory_path : string)
    (chunk_size chunk_overlap : Z) : M (list Document) :=
  print ("Processing documents in " +:+ directory_path +:+ "...") ;;
  documents <- load_documents w directory_path ;;
  print ("Loaded " +:+ pretty (length documents) +:+ " documents") ;;
  chunks <- split_documents w documents chunk_size chunk_overlap ;;
  print ("Created " +:+ pretty (length chunks) +:+ " chunks") ;;
  ret chunks.

End DocumentProcessor.

(** ** embedding_storage.py *)

Module EmbeddingStorage.

Definition get_embeddings (w : world) : M unit :=
  call (HuggingFaceEmbeddingsInit "all-MiniLM-L6-v2")
    (check (hf_embeddings_check w "all-MiniLM-L6-v2")).

Definition store_documents (w : world) (chunks : list Document)
    (persist_directory : string) : M unit :=
  get_embeddings w ;;
  call (ChromaFromDocuments persist_directory (length chunks))
    (check (chroma_from_documents w chunks persist_directory)) ;;
  print ("Stored " +:+ pretty (length chunks) +:+ " chunks in ChromaDB at "
         +:+ persist_directory).

Definition retrieve_documents (w : world) (query : string) (top_k : Z)
    (persist_directory : string) : M (list (Document * float)) :=
  get_embeddings w ;;
  call (ChromaInit persist_directory) (check (chroma_check w persist_directory)) ;;
  results <- call (SimilaritySearch query top_k)
               (similarity_search_with_score w persist_directory query top_k) ;;
  ret results.

End EmbeddingStorage.

(** ** rag_query.py *)

Module RagQuery.

Definition nl : string := String "010" "".

Definition ollama_url : string := "http://localhost:11434/api/generate".

(** [body[key]] on a decoded JSON body, for a string [key]: only a dict
    can be subscripted with it, and the [TypeError] of the other values
    names their type (messages of CPython 3.11). *)
Definition getitem (body : json_body) (key : string) : result value :=
  match body with
  | JObject fields =>
      match fields !! key with
      | Some v => Ok v
      | None => Raise (Exception "KeyError" ("'" +:+ key +:+ "'"))
      end
  | JArray =>
      Raise (Exception "TypeError"
               "list indices must be integers or slices, not str")
  | JString =>
      Raise (Exception "TypeError"
               "string indices must be integers, not 'str'")
  | JInt => Raise (Exception "TypeError" "'int' object is not subscriptable")
  | JFloat => Raise (Exception "TypeError" "'float' object is not subscriptable")
  | JBool => Raise (Exception "TypeError" "'bool' object is not subscriptable")
  | JNull =>
      Raise (Exception "TypeError" "'NoneType' object is not subscriptable")
  end.

Definition query_ollama (w : world) (prompt model : string) : M value :=
  response <- call (RequestsPost ollama_url model prompt)
                (requests_post w ollama_url model prompt) ;;
  if decide (status_code response = 200%Z) then
    body <- lift (json response) ;;
    lift (getitem body "response")
  else
    ret (VStr ("Error: " +:+ text response)).

(** One context block of the prompt. *)
Definition context_block (doc : Document) : string :=
  "Document: " +:+ str (default (VStr "Unknown") (metadata doc !! "file_name"))
  +:+ nl +:+ "Content: " +:+ page_content doc.

(** The body of [for doc, score in relevant_docs], on the two lists it
    appends to. *)
Definition collect_step (acc : list string * list value)
    (pair : Document * float) : list string * list value :=
  let '(context_parts, sources) := acc in
  let '(doc, score) := pair in
  let context_parts := context_parts ++ [context_block doc] in
  let sources :=
    match metadata doc !! "source" with
    | Some source => sources ++ [source]
    | None => sources
    end in
  (context_parts, sources).

(** [doc.metadata["source"]] of a retrieved pair, when the key is there. *)
Definition source_of (pair : Document * float) : option value :=
  metadata pair.1 !! "source".

Definition collect (relevant_docs : list (Document * float))
  : list string * list value :=
  fold_left collect_step relevant_docs ([], []).

(** [set(sources)] and the order in which Python iterates over it, which
    the language leaves unspecified. *)
Definition set_of (sources : list value) : gset value := list_to_set sources.
Definition iterate (s : gset value) : list value := elements s.

(** The loop [for i, source in enumerate(set(sources))], from index [i] on. *)
Fixpoint format_sources (i : nat) (sources : list value)
    (formatted_sources : list string) : result (list string) :=
  match sources with
  | [] => Ok formatted_sources
  | source :: rest =>
      match basename source with
      | Ok name =>
          format_sources (S i) rest
            (formatted_sources ++ ["[" +:+ pretty (i + 1)%nat +:+ "] " +:+ name])
      | Raise e => Raise e
      end
  end.

Definition prompt_template (context citations user_query : string) : string :=
  "You are an educational assistant that answers questions based on course materials."
  +:+ nl +:+
  "Use the following context to answer the question, and cite your sources where possible."
  +:+ nl +:+ nl +:+ "CONTEXT:" +:+ nl +:+ context +:+ nl +:+ nl +:+
  "SOURCES:" +:+ nl +:+ citations +:+ nl +:+ nl +:+
  "QUESTION:" +:+ nl +:+ user_query +:+ nl +:+ nl +:+ "ANSWER:" +:+ nl.

Record RagAnswer := {
  answer : value;
  sources : list value;
}.

Definition rag_query (w : world) (user_query model : string) (top_k : Z)
  : M RagAnswer :=
  relevant_docs <-
    EmbeddingStorage.retrieve_documents w user_query top_k "./chroma_db" ;;
  let '(context_parts, sources) := collect relevant_docs in
  let context := join (nl +:+ nl) context_parts in
  formatted_sources <- lift (format_sources 0 (iterate (set_of sources)) []) ;;
  let prompt := prompt_template context (join ", " formatted_sources) user_query in
  answer <- query_ollama w prompt model ;;
  ret {| answer := answer; sources := iterate (set_of sources) |}.

(** The lines printed after a query by both command-line front ends:
    [for i, source in enumerate(result["sources"])]. *)
Fixpoint print_sources (i : nat) (sources : list value) : M unit :=
  match sources with
  | [] => ret tt
  | source :: rest =>
      name <- lift (basename source) ;;
      print ("[" +:+ pretty (i + 1)%nat +:+ "] " +:+ name) ;;
      print_sources (S i) rest
  end.

Definition print_result (result : RagAnswer) : M unit :=
  print (nl +:+ "Answer:") ;;
  print (str (answer result)) ;;
  print (nl +:+ "Sources:") ;;
  print_sources 0 (sources result).

End RagQuery.

(** ** main.py *)

Module Main.

(** The namespace returned by [parser.parse_args()]. *)
Inductive args :=
| ArgsProcess (directory : string) (chunk_size chunk_overlap : Z) (db_path : string)
| ArgsQuery (query model : string) (top_k : Z) (db_path : string)
| ArgsNone.

Definition main (w : world) (a : args) : M unit :=
  match a with
  | ArgsProcess directory chunk_size chunk_overlap db_path =>
      exists_ <- call (IsDir directory) (Ok (isdir w directory)) ;;
      if negb exists_ then
        print ("Error: Directory " +:+ directory +:+ " does not exist")
      else
        chunks <- DocumentProcessor.process_directory w directory
                    chunk_size chunk_overlap ;;
        match chunks with
        | _ :: _ => EmbeddingStorage.store_documents w chunks db_path
        | [] => print "No documents were processed."
        end
  | ArgsQuery query model top_k db_path =>
      exists_ <- call (IsDir db_path) (Ok (isdir w db_path)) ;;
      if negb exists_ then
        print ("Error: Vector database at " +:+ db_path
               +:+ " does not exist. Process documents first.")
      else
        result <- RagQuery.rag_query w query model top_k ;;
        RagQuery.print_result result
  | ArgsNone => call PrintHelp (Ok tt)
  end.

End Main.

(** ** interactive.py *)

Module Interactive.

(** [str.lower] on the ASCII letters. *)
Definition lower_ascii (c : ascii) : ascii :=
  let n := nat_of_ascii c in
  if (65 <=? n)%nat && (n <=? 90)%nat then ascii_of_nat (n + 32) else c.

Fixpoint lower (s : string) : string :=
  match s with
  | EmptyString => EmptyString
  | String c rest => String (lower_ascii c) (lower rest)
  end.

(** The [while True] loop over the lines available on standard input;
    [input()] raises [EOFError] once they are used up. *)
Fixpoint interactive_loop (w : world) (model : string) (top_k : Z)
    (stdin : list string) : M unit :=
  match stdin with
  | [] =>
      call (Input (RagQuery.nl +:+ "Question: "))
        (Raise (Exception "EOFError" "EOF when reading a line"))
  | query :: rest =>
      call (Input (RagQuery.nl +:+ "Question: ")) (Ok tt) ;;
      if bool_decide (lower query ∈ ["exit"; "quit"; "q"]) then ret tt
      else
        print (RagQuery.nl +:+ "Thinking...") ;;
        result <- RagQuery.rag_query w query model top_k ;;
        RagQuery.print_result result ;;
        interactive_loop w model top_k rest
  end.

Definition interactive_mode (w : world) (model : string) (top_k : Z)
    (db_path : string) (stdin : list string) : M unit :=
  print (RagQuery.nl +:+ "=== Educational RAG System Interactive Mode ===") ;;
  print ("Using model: " +:+ model) ;;
  print ("Database: " +:+ db_path) ;;
  print ("Type " +:+ String "034" ("exit" +:+ String "034" (" to quit" +:+ RagQuery.nl))) ;;
  interactive_loop w model top_k stdin.

(** The script body under [if __name__ == "__main__"]. *)
Definition script (w : world) (model : string) (top_k : Z) (db_path : string)
    (stdin : list string) : M unit :=
  exists_ <- call (IsDir db_path) (Ok (isdir w db_path)) ;;
  if negb exists_ then
    print ("Error: Vector database at " +:+ db_path
           +:+ " does not exist. Process documents first.") ;;
    raise (SystemExit 1)
  else
    interactive_mode w model top_k db_path stdin.

End Interactive.

(** ** The text splitter of langchain

    [RecursiveCharacterTextSplitter] as the library implements it for the
    way [split_documents] builds it: literal separators, kept at the
    start of the piece that follows them, chunks stripped of surrounding
    white space, lengths counted in characters.  It gives the concrete
    worlds below a splitter that answers as the library does. *)

Module Langchain.

(** The parameter checks of [TextSplitter.__init__]. *)
Definition init_check (chunk_size chunk_overlap : Z) : option exn :=
  if (chunk_size <=? 0)%Z then
    Some (Exception "ValueError"
            ("chunk_size must be > 0, got " +:+ pretty chunk_size))
  else if (chunk_overlap <? 0)%Z then
    Some (Exception "ValueError"
            ("chunk_overlap must be >= 0, got " +:+ pretty chunk_overlap))
  else if (chunk_overlap >? chunk_size)%Z then
    Some (Exception "ValueError"
            ("Got a larger chunk overlap (" +:+ pretty chunk_overlap
             +:+ ") than chunk size (" +:+ pretty chunk_size
             +:+ "), should be smaller."))
  else None.

Definition len (s : string) : Z := Z.of_nat (String.length s).

(** The characters [str.strip()] removes, among the ASCII ones. *)
Definition is_space (c : ascii) : bool :=
  let n := nat_of_ascii c in
  ((9 <=? n)%nat && (n <=? 13)%nat) || ((28 <=? n)%nat && (n <=? 32)%nat).

Fixpoint lstrip (s : string) : string :=
  match s with
  | EmptyString => EmptyString
  | String c rest => if is_space c then lstrip rest else s
  end.

Fixpoint rstrip (s : string) : string :=
  match s with
  | EmptyString => EmptyString
  | String c rest =>
      match rstrip rest with
      | EmptyString => if is_space c then EmptyString else String c EmptyString
      | kept => String c kept
      end
  end.

Definition strip (s : string) : string := rstrip (lstrip s).

(** [re.search(re.escape(sep), text)]: does [sep] occur in [text]? *)
Fixpoint occurs (sep text : string) : bool :=
  String.prefix sep text
  || match text with
     | EmptyString => false
     | String _ rest => occurs sep rest
     end.

(** The pieces of [text] between the occurrences of a non-empty [sep],
    found from left to right without overlap; [skip] characters of the
    occurrence just found are still to be passed over. *)
Fixpoint split_at (sep : string) (skip : nat) (text piece : string)
  : list string :=
  match text with
  | EmptyString => [piece]
  | String c rest =>
      match skip with
      | S k => split_at sep k rest piece
      | O =>
          if String.prefix sep text
          then piece :: split_at sep (String.length sep - 1) rest EmptyString
          else split_at sep 0 rest (piece +:+ String c EmptyString)
      end
  end.

(** [_split_text_with_regex(text, separator, keep_separator=True)]. *)
Definition split_keeping (sep text : string) : list string :=
  let splits :=
    match sep with
    | EmptyString => (λ c, String c EmptyString) <$> list_ascii_of_string text
    | _ =>
        match split_at sep 0 text EmptyString with
        | [] => []
        | first :: others => first :: ((λ p, sep +:+ p) <$> others)
        end
    end in
  filter (λ p, p ≠ EmptyString) splits.

(** [_join_docs(docs, "")]. *)
Definition join_docs (docs : list string) : list string :=
  match strip (String.concat "" docs) with
  | EmptyString => []
  | joined => [joined]
  end.

(** The [while] loop of [_merge_splits]: drop pieces from the front of
    the current chunk until at most [chunk_overlap] characters are left
    and the next piece, of length [l], fits. *)
Fixpoint pop (chunk_size chunk_overlap l : Z) (current_doc : list string)
    (total : Z) : list string * Z :=
  match current_doc with
  | [] => ([], total)
  | first :: rest =>
      if (total >? chunk_overlap)%Z
         || ((total + l >? chunk_size)%Z && (total >? 0)%Z)
      then pop chunk_size chunk_overlap l rest (total - len first)%Z
      else (current_doc, total)
  end.

(** [_merge_splits(splits, "")]. *)
Fixpoint merge_splits (chunk_size chunk_overlap : Z) (splits : list string)
    (current_doc : list string) (total : Z) (docs : list string)
  : list string :=
  match splits with
  | [] => docs ++ join_docs current_doc
  | d :: rest =>
      let l := len d in
      let '(current_doc, total, docs) :=
        if (total + l >? chunk_size)%Z then
          match current_doc with
          | [] => (current_doc, total, docs)
          | _ :: _ =>
              let docs := docs ++ join_docs current_doc in
              let '(current_doc, total) :=
                pop chunk_size chunk_overlap l current_doc total in
              (current_doc, total, docs)
          end
        else (current_doc, total, docs) in
      merge_splits chunk_size chunk_overlap rest (current_doc ++ [d])
        (total + l)%Z docs
  end.

Definition merge_good (chunk_size chunk_overlap : Z) (good_splits : list string)
  : list string :=
  match good_splits with
  | [] => []
  | _ :: _ => merge_splits chunk_size chunk_overlap good_splits [] 0 []
  end.

(** The loop of [_split_text] over the pieces: short pieces are gathered
    and merged, a piece that is too long is split further with the
    remaining separators, or kept whole when none remains. *)
Fixpoint split_pieces (chunk_size chunk_overlap : Z)
    (further : option (string → list string)) (splits good_splits : list string)
    (final_chunks : list string) : list string :=
  match splits with
  | [] => final_chunks ++ merge_good chunk_size chunk_overlap good_splits
  | s :: rest =>
      if (len s <? chunk_size)%Z then
        split_pieces chunk_size chunk_overlap further rest (good_splits ++ [s])
          final_chunks
      else
        let final_chunks :=
          final_chunks ++ merge_good chunk_size chunk_overlap good_splits in
        let final_chunks :=
          final_chunks ++ match further with
                          | None => [s]
                          | Some split => split s
                          end in
        split_pieces chunk_size chunk_overlap further rest [] final_chunks
  end.

(** [_split_text(text, separators)]: the first separator that is empty or
    occurs in the text is used, the last one when there is none. *)
Fixpoint split_text (chunk_size chunk_overlap : Z) (separators : list string)
    (text : string) : list string :=
  match separators with
  | [] => []
  | sep :: new_separators =>
      match sep with
      | EmptyString =>
          split_pieces chunk_size chunk_overlap None (split_keeping sep text) [] []
      | _ =>
          if occurs sep text then
            split_pieces chunk_size chunk_overlap
              match new_separators with
              | [] => None
              | _ :: _ => Some (split_text chunk_size chunk_overlap new_separators)
              end
              (split_keeping sep text) [] []
          else
            match new_separators with
            | [] =>
                split_pieces chunk_size chunk_overlap None
                  (split_keeping sep text) [] []
            | _ :: _ => split_text chunk_size chunk_overlap new_separators text
            end
      end
  end.

(** [split_documents(documents)]: every chunk of every document becomes a
    new object with a copy of its document's metadata in a dict of its
    own. *)
Definition split_documents (chunk_size chunk_overlap : Z)
    (separators : list string) (documents : list Document)
  : heap * list DocumentObj :=
  let chunks :=
    documents ≫= λ d,
      (λ chunk, (chunk, metadata d))
        <$> split_text chunk_size chunk_overlap separators (page_content d) in
  (list_to_map (imap (λ i chunk, (Pos.of_succ_nat i, chunk.2)) chunks),
   imap (λ i chunk, {| obj_page_content := chunk.1;
                       obj_metadata := Pos.of_succ_nat i |}) chunks).

End Langchain.

(** ** Concrete worlds, used to run the functions on actual inputs *)

Module Demo.

Definition notes : Document :=
  {| page_content := "Retrieval grounds the answer.";
     metadata := {["source" := VStr "docs/week1/notes.txt"]} |}.

Definition slides : Document :=
  {| page_content := "Chunks overlap.";
     metadata := {["source" := VStr "docs/slides.pdf"]} ∪ {["page" := VInt 3]} |}.

Definition scrap : Document :=
  {| page_content := "No lineage."; metadata := ∅ |}.

(** A chunk as the index stores it, stamped by [split_documents]. *)
Definition stored (d : Document) (file_name : string) (chunk_id : Z) : Document :=
  {| page_content := page_content d;
     metadata := <["chunk_id" := VInt chunk_id]>
                   (<["file_name" := VStr file_name]> (metadata d)) |}.

(** What the splitter answers when every document fits in one chunk: one
    chunk per document, each with a metadata dict of its own. *)
Definition one_chunk_each (documents : list Document) : heap * list DocumentObj :=
  (list_to_map (imap (λ i d, (Pos.of_succ_nat i, metadata d)) documents),
   imap (λ i d, {| obj_page_content := page_content d;
                   obj_metadata := Pos.of_succ_nat i |}) documents).

(** A splitter whose chunks all point at one metadata dict. *)
Definition shared_dict (documents : list Document) : heap * list DocumentObj :=
  ({[1%positive := ∅]},
   (λ d, {| obj_page_content := page_content d; obj_metadata := 1%positive |})
     <$> documents).

Definition generated : Response :=
  {| status_code := 200;
     text := "{response: Retrieval first.}";
     json := Ok (JObject {["response" := VStr "Retrieval first."]}) |}.

Definition unavailable : Response :=
  {| status_code := 503;
     text := "model is loading";
     json := Raise (Exception "JSONDecodeError" "Expecting value") |}.

(** Every collaborator answers, the text splitter as langchain's does. *)
Definition up : world :=
  {| directory_loader_load := λ _ _ cls,
       match cls with
       | PyPDFLoader => Ok [slides]
       | TextLoader => Ok [notes]
       end;
     text_splitter_check := λ chunk_size chunk_overlap _,
       Langchain.init_check chunk_size chunk_overlap;
     text_splitter_split := λ chunk_size chunk_overlap separators documents,
       Ok (Langchain.split_documents chunk_size chunk_overlap separators
             documents);
     hf_embeddings_check := λ _, None;
     chroma_check := λ _, None;
     chroma_from_documents := λ _ _, None;
     similarity_search_with_score := λ _ _ _,
       Ok [(stored notes "notes.txt" 0, 1%Z); (scrap, 2%Z);
           (stored notes "notes.txt" 0, 3%Z); (stored slides "slides.pdf" 1, 4%Z)];
     requests_post := λ _ _ _, Ok generated;
     isdir := λ path, bool_decide (path = "./chroma_db" ∨ path = "docs") |}.

Definition with_loader (w : world)
    (load : string → string → loader_cls → result (list Document)) : world :=
  {| directory_loader_load := load;
     text_splitter_check := text_splitter_check w;
     text_splitter_split := text_splitter_split w;
     hf_embeddings_check := hf_embeddings_check w;
     chroma_check := chroma_check w;
     chroma_from_documents := chroma_from_documents w;
     similarity_search_with_score := similarity_search_with_score w;
     requests_post := requests_post w;
     isdir := isdir w |}.

Definition with_index (w : world) (chroma : string → option exn)
    (search : string → string → Z → result (list (Document * float))) : world :=
  {| directory_loader_load := directory_loader_load w;
     text_splitter_check := text_splitter_check w;
     text_splitter_split := text_splitter_split w;
     hf_embeddings_check := hf_embeddings_check w;
     chroma_check := chroma;
     chroma_from_documents := chroma_from_documents w;
     similarity_search_with_score := search;
     requests_post := requests_post w;
     isdir := isdir w |}.

Definition with_post (w : world)
    (post : string → string → string → result Response) : world :=
  {| directory_loader_load := directory_loader_load w;
     text_splitter_check := text_splitter_check w;
     text_splitter_split := text_splitter_split w;
     hf_embeddings_check := hf_embeddings_check w;
     chroma_check := chroma_check w;
     chroma_from_documents := chroma_from_documents w;
     similarity_search_with_score := similarity_search_with_score w;
     requests_post := post;
     isdir := isdir w |}.

(** The PDF loader fails on a corrupt file. *)
Definition corrupt_pdf : world :=
  with_loader up (λ _ _ cls,
    match cls with
    | PyPDFLoader => Raise (Exception "PdfReadError" "EOF marker not found")
    | TextLoader => Ok [notes]
    end).

(** The text loader fails on a file that is not UTF-8. *)
Definition bad_text : world :=
  with_loader up (λ _ _ cls,
    match cls with
    | PyPDFLoader => Ok [slides]
    | TextLoader => Raise (Exception "RuntimeError" "Error loading notes.txt")
    end).

(** The vector store cannot be opened. *)
Definition no_index : world :=
  with_index up
    (λ _, Some (Exception "InternalError" "could not open the collection"))
    (similarity_search_with_score up).

(** The vector store holds nothing. *)
Definition empty_index : world :=
  with_index up (chroma_check up) (λ _ _ _, Ok []).

(** The generation service answers with a non-success status. *)
Definition service_down : world := with_post up (λ _ _ _, Ok unavailable).

(** A document whose [source] is not a path. *)
Definition numbered : Document :=
  {| page_content := "Row 7."; metadata := {["source" := VInt 7]} |}.

(** The user interrupts the PDF loader. *)
Definition interrupted : world :=
  with_loader up (λ _ _ cls,
    match cls with
    | PyPDFLoader => Raise KeyboardInterrupt
    | TextLoader => Ok [notes]
    end).

(** The directory holds no supported file and the splitter, given no
    document, returns no chunk. *)
Definition empty_directory : world :=
  with_loader up (λ _ _ _, Ok []).

(** The generation service cannot be reached. *)
Definition refused : world :=
  with_post up (λ _ _ _, Raise (Exception "ConnectionError" "Connection refused")).

(** The index returns a chunk whose [source] is an integer. *)
Definition odd_index : world :=
  with_index up (chroma_check up) (λ _ _ _, Ok [(numbered, 1%Z)]).

(** Status 200 with a JSON list as body. *)
Definition list_body : world :=
  with_post up (λ _ _ _,
    Ok {| status_code := 200; text := "[1, 2]"; json := Ok JArray |}).

(** Status 200 with a JSON object that has no [response] field. *)
Definition no_field : world :=
  with_post up (λ _ _ _,
    Ok {| status_code := 200; text := "{error: no model}";
          json := Ok (JObject {["error" := VStr "no model"]}) |}).

End Demo.

(** ** Properties of document_processor.py *)

Module DocumentProcessorSpec.
Import DocumentProcessor.

Section Stamping.

Implicit Types (h : heap) (chunks : list DocumentObj) (i k : nat).

Lemma get_set_metadata h chunk key v :
  get_metadata (set_metadata h chunk key v) chunk
  = <[key := v]> (get_metadata h chunk).
Proof.
  unfold get_metadata at 1, set_metadata. by rewrite lookup_insert_eq.
Qed.

Lemma set_metadata_other h chunk key v (l : loc) :
  l ≠ obj_metadata chunk → set_metadata h chunk key v !! l = h !! l.
Proof. intros Hne. unfold set_metadata. by rewrite lookup_insert_ne. Qed.

(** The loop writes to the dicts of the chunks it visits and to no other. *)
Lemma stamp_chunks_frame chunks : ∀ i h h' (l : loc),
  stamp_chunks i chunks h = Ok h' →
  l ∉ obj_metadata <$> chunks →
  h' !! l = h !! l.
Proof.
  induction chunks as [|chunk rest IH]; intros i h h' l Hrun Hl; simpl in *.
  - by inversion Hrun.
  - apply not_elem_of_cons in Hl as [Hne Hrest].
    destruct (get_metadata h chunk !! "source") as [source|].
    + destruct (basename source) as [name|e]; [|discriminate].
      rewrite (IH _ _ _ _ Hrun Hrest).
      by rewrite !set_metadata_other.
    + rewrite (IH _ _ _ _ Hrun Hrest).
      by rewrite set_metadata_other.
Qed.

(** When no two chunks share a metadata dict, the chunk at position [k]
    of the list ends up with the index [i + k]. *)
Lemma stamp_chunks_lookup chunks : ∀ i h h' k chunk,
  stamp_chunks i chunks h = Ok h' →
  NoDup (obj_metadata <$> chunks) →
  chunks !! k = Some chunk →
  get_metadata h' chunk !! "chunk_id" = Some (VInt (Z.of_nat (i + k))).
Proof.
  induction chunks as [|c rest IH]; intros i h h' k chunk Hrun Hnd Hk;
    [done|].
  rewrite fmap_cons in Hnd. apply NoDup_cons in Hnd as [Hfresh Hnd].
  simpl in Hrun.
  destruct k as [|k]; simpl in Hk.
  - inversion Hk; subst c. rewrite Nat.add_0_r.
    destruct (get_metadata h chunk !! "source") as [source|];
      [destruct (basename source) as [name|e]; [|discriminate]|];
      unfold get_metadata at 1;
      rewrite (stamp_chunks_frame _ _ _ _ _ Hrun Hfresh);
      fold (get_metadata
              (set_metadata (set_metadata h chunk "file_name" (VStr name))
                 chunk "chunk_id" (VInt (Z.of_nat i))) chunk)
      || fold (get_metadata
                 (set_metadata h chunk "chunk_id" (VInt (Z.of_nat i))) chunk);
      rewrite get_set_metadata; apply lookup_insert_eq.
  - replace (i + S k)%nat with (S i + k)%nat by lia.
    destruct (get_metadata h c !! "source") as [source|];
      [destruct (basename source) as [name|e]; [|discriminate]|];
      eapply IH; eauto.
Qed.

(** The loop succeeds whenever every [source] it meets is a string. *)
Lemma stamp_chunks_total chunks : ∀ i h,
  (∀ (l : loc) d v, h !! l = Some d → d !! "source" = Some v → ∃ s, v = VStr s) →
  ∃ h', stamp_chunks i chunks h = Ok h'.
Proof.
  induction chunks as [|c rest IH]; intros i h Hstr; simpl; [by eexists|].
  assert (Hset : ∀ h0 key v,
    key ≠ "source" →
    (∀ (l : loc) d v, h0 !! l = Some d → d !! "source" = Some v → ∃ s, v = VStr s) →
    ∀ (l : loc) d v', set_metadata h0 c key v !! l = Some d →
      d !! "source" = Some v' → ∃ s, v' = VStr s).
  { intros h0 key v Hkey Hh0 l d v' Hl Hd. unfold set_metadata in Hl.
    destruct (decide (l = obj_metadata c)) as [->|Hne].
    - rewrite lookup_insert_eq in Hl. inversion Hl; subst d.
      rewrite lookup_insert_ne in Hd by done.
      unfold get_metadata in Hd.
      destruct (h0 !! obj_metadata c) as [d0|] eqn:E; simpl in Hd; [|done].
      eauto.
    - rewrite lookup_insert_ne in Hl by done. eauto. }
  destruct (get_metadata h c !! "source") as [source|] eqn:Hsrc.
  - assert (∃ s, source = VStr s) as [s ->].
    { unfold get_metadata in Hsrc.
      destruct (h !! obj_metadata c) as [d0|] eqn:E; simpl in Hsrc; [|done].
      eauto. }
    simpl. apply IH. apply Hset; [done|]. apply Hset; done.
  - apply IH. apply Hset; done.
Qed.

End Stamping.

(** C1: in the list returned by one run of [split_documents], over any
    input documents and any answer of the text splitter whose chunks each
    own their metadata dict, the chunk at position [i] carries
    [chunk_id = i]; hence the ids are pairwise distinct and strictly
    increasing in emission order, numbered across the whole run. *)
Theorem split_documents_chunk_ids (w : world) (documents : list Document)
    (chunk_size chunk_overlap : Z) (h : heap) (objs : list DocumentObj)
    (t : list event) (chunks : list Document) :
  text_splitter_split w chunk_size chunk_overlap separators documents
    = Ok (h, objs) →
  NoDup (obj_metadata <$> objs) →
  split_documents w documents chunk_size chunk_overlap = (t, Ok chunks) →
  length chunks = length objs
  ∧ (∀ i chunk, chunks !! i = Some chunk →
       chunk_id chunk = Some (VInt (Z.of_nat i)))
  ∧ NoDup (chunk_id <$> chunks)
  ∧ (∀ i j ci cj, chunks !! i = Some ci → chunks !! j = Some cj →
       (i < j)%nat →
       ∃ a b, chunk_id ci = Some (VInt a) ∧ chunk_id cj = Some (VInt b)
              ∧ (a < b)%Z).
Proof.
  intros Hsplit Hnd Hrun.
  unfold split_documents, call, bind, lift in Hrun. rewrite Hsplit in Hrun.
  destruct (check _) as [[]|e]; simpl in Hrun; [|discriminate].
  destruct (stamp_chunks 0 objs h) as [h'|e] eqn:Hstamp; simpl in Hrun;
    [|discriminate].
  injection Hrun as _ <-.
  assert (Hid : ∀ i chunk, (snapshot h' <$> objs) !! i = Some chunk →
                  chunk_id chunk = Some (VInt (Z.of_nat i))).
  { intros i chunk Hi. rewrite list_lookup_fmap in Hi.
    destruct (objs !! i) as [o|] eqn:Ho; simpl in Hi; [|done].
    inversion Hi; subst chunk. unfold chunk_id, snapshot; simpl.
    by rewrite (stamp_chunks_lookup _ _ _ _ _ _ Hstamp Hnd Ho). }
  split; [by rewrite length_fmap|]. split; [exact Hid|]. split.
  - apply NoDup_alt. intros i j x Hi Hj.
    rewrite list_lookup_fmap in Hi, Hj.
    destruct ((snapshot h' <$> objs) !! i) as [ci|] eqn:Ei; simpl in Hi; [|done].
    destruct ((snapshot h' <$> objs) !! j) as [cj|] eqn:Ej; simpl in Hj; [|done].
    rewrite (Hid _ _ Ei) in Hi. rewrite (Hid _ _ Ej) in Hj.
    rewrite <- Hi in Hj. inversion Hj. lia.
  - intros i j ci cj Hi Hj Hlt.
    exists (Z.of_nat i), (Z.of_nat j).
    rewrite (Hid _ _ Hi), (Hid _ _ Hj). repeat split; lia.
Qed.

Lemma split_documents_chunk_ids_witness :
  ∃ t chunks,
    split_documents Demo.up [Demo.notes; Demo.slides; Demo.scrap] 1000 200
      = (t, Ok chunks)
    ∧ length chunks = 3%nat
    ∧ (∀ i chunk, chunks !! i = Some chunk →
         chunk_id chunk = Some (VInt (Z.of_nat i)))
    ∧ NoDup (chunk_id <$> chunks)
    ∧ (∀ i j ci cj, chunks !! i = Some ci → chunks !! j = Some cj →
         (i < j)%nat →
         ∃ a b, chunk_id ci = Some (VInt a) ∧ chunk_id cj = Some (VInt b)
                ∧ (a < b)%Z).
Proof.
  eexists _, _. split; [vm_compute; reflexivity|].
  eapply (split_documents_chunk_ids Demo.up
           [Demo.notes; Demo.slides; Demo.scrap] 1000 200
           (Demo.one_chunk_each [Demo.notes; Demo.slides; Demo.scrap]).1
           (Demo.one_chunk_each [Demo.notes; Demo.slides; Demo.scrap]).2).
  - reflexivity.
  - apply (bool_decide_unpack _). vm_compute. exact I.
  - vm_compute. reflexivity.
Defined.

(** Why the chunks must own their dicts: were they to share one, every
    chunk would read the index written last. *)
Example stamp_shared_dict :
  let '(h, objs) := Demo.shared_dict [Demo.notes; Demo.slides; Demo.scrap] in
  (λ h', chunk_id <$> (snapshot h' <$> objs)) <$> outcome_heap (stamp_chunks 0 objs h)
  = Some [Some (VInt 2); Some (VInt 2); Some (VInt 2)].
Proof. vm_compute. reflexivity. Qed.

(** [split_documents] compares [chunk_overlap] with [chunk_size] nowhere:
    whether a call fails before splitting is decided by the text
    splitter's constructor alone. *)
Lemma split_documents_constructor_decides (w : world)
    (documents : list Document) (chunk_size chunk_overlap : Z) :
  (∀ e, text_splitter_check w chunk_size chunk_overlap separators = Some e →
     split_documents w documents chunk_size chunk_overlap
     = ([TextSplitterInit chunk_size chunk_overlap], Raise e))
  ∧ (text_splitter_check w chunk_size chunk_overlap separators = None →
     ∃ t r, split_documents w documents chunk_size chunk_overlap
            = (TextSplitterInit chunk_size chunk_overlap
                 :: TextSplitterSplit (length documents) :: t, r)).
Proof.
  split.
  - intros e He. unfold split_documents, call, bind. by rewrite He.
  - intros Hnone. unfold split_documents, call, bind, lift. rewrite Hnone.
    simpl.
    destruct (text_splitter_split w _ _ _ _) as [[h objs]|e]; simpl.
    + destruct (stamp_chunks 0 objs h); simpl; by eexists _, _.
    + by eexists _, _.
Qed.

(** C3, as the code has it: [split_documents] has no check of its own,
    and the text splitter's constructor, called first, checks the
    parameters as langchain does.  So a call with [chunk_overlap]
    larger than [chunk_size] fails fast with a [ValueError] before any
    splitting is attempted and no chunks are produced; a call with
    [chunk_overlap] equal to a positive [chunk_size] is accepted and goes
    on to split. *)
Theorem split_documents_fails_fast_on_larger_overlap (w : world)
    (documents : list Document) (chunk_size chunk_overlap : Z) :
  text_splitter_check w chunk_size chunk_overlap separators
    = Langchain.init_check chunk_size chunk_overlap →
  ((chunk_overlap > chunk_size)%Z →
     ∃ msg, split_documents w documents chunk_size chunk_overlap
            = ([TextSplitterInit chunk_size chunk_overlap],
               Raise (Exception "ValueError" msg)))
  ∧ ((0 < chunk_size)%Z → chunk_overlap = chunk_size →
     ∃ t r, split_documents w documents chunk_size chunk_overlap
            = (TextSplitterInit chunk_size chunk_overlap
                 :: TextSplitterSplit (length documents) :: t, r)).
Proof.
  intros Hcheck.
  destruct (split_documents_constructor_decides w documents chunk_size
              chunk_overlap) as [Hfail Hpass].
  split.
  - intros Hgt.
    assert (∃ msg, Langchain.init_check chunk_size chunk_overlap
                   = Some (Exception "ValueError" msg)) as [msg Hmsg].
    { unfold Langchain.init_check.
      destruct (chunk_size <=? 0)%Z eqn:H0; [by eexists|].
      destruct (chunk_overlap <? 0)%Z eqn:H1; [by eexists|].
      destruct (chunk_overlap >? chunk_size)%Z eqn:H2; [by eexists|].
      rewrite Z.gtb_ltb in H2. apply Z.ltb_ge in H2. lia. }
    exists msg. apply Hfail. by rewrite Hcheck.
  - intros Hpos ->. apply Hpass. rewrite Hcheck.
    unfold Langchain.init_check.
    destruct (chunk_size <=? 0)%Z eqn:H0; [apply Z.leb_le in H0; lia|].
    destruct (chunk_size <? 0)%Z eqn:H1; [apply Z.ltb_lt in H1; lia|].
    by rewrite Z.gtb_ltb, Z.ltb_irrefl.
Qed.

Lemma split_documents_fails_fast_on_larger_overlap_witness :
  (∃ msg, split_documents Demo.up [Demo.notes] 5 7
          = ([TextSplitterInit 5 7], Raise (Exception "ValueError" msg)))
  ∧ ∃ t r, split_documents Demo.up [Demo.notes] 5 5
           = (TextSplitterInit 5 5 :: TextSplitterSplit 1 :: t, r).
Proof.
  destruct (split_documents_fails_fast_on_larger_overlap Demo.up [Demo.notes]
              5 7 eq_refl) as [Hfail _].
  destruct (split_documents_fails_fast_on_larger_overlap Demo.up [Demo.notes]
              5 5 eq_refl) as [_ Hpass].
  split.
  - apply Hfail. reflexivity.
  - apply Hpass; reflexivity.
Defined.

(** C3 as stated fails: with [chunk_overlap = chunk_size = 5] nothing is
    raised; the text of [Demo.notes] is split and 14 chunks come back. *)
Lemma split_documents_equal_overlap_splits :
  (5 >= 5)%Z
  ∧ ∃ chunks,
      split_documents Demo.up [Demo.notes] 5 5
      = ([TextSplitterInit 5 5; TextSplitterSplit 1], Ok chunks)
      ∧ page_content <$> chunks
        = ["Retri"; "etrie"; "triev"; "rieva"; "ieval"; "grou"; "groun";
           "round"; "ounds"; "the"; "answ"; "answe"; "nswer"; "."]
      ∧ length chunks = 14%nat.
Proof.
  split; [lia|]. eexists. split; [vm_compute; reflexivity|].
  split; reflexivity.
Qed.

(** C8: when one loader raises an [Exception], [load_documents] reports
    it, still runs the other loader, and returns the documents that did
    load; when both raise, it returns the empty list. *)
Theorem load_documents_isolates_loader_failures (w : world)
    (directory_path : string) :
  let pdf := directory_loader_load w directory_path "**/*.pdf" PyPDFLoader in
  let txt := directory_loader_load w directory_path "**/*.txt" TextLoader in
  (∀ cls msg docs,
     pdf = Raise (Exception cls msg) → txt = Ok docs →
     load_documents w directory_path
     = ([DirectoryLoaderLoad directory_path "**/*.pdf";
         Print ("Error loading PDF files: " +:+ msg);
         DirectoryLoaderLoad directory_path "**/*.txt";
         Print "Loaded text documents"],
        Ok docs))
  ∧ (∀ cls msg docs,
     pdf = Ok docs → txt = Raise (Exception cls msg) →
     load_documents w directory_path
     = ([DirectoryLoaderLoad directory_path "**/*.pdf";
         Print "Loaded PDF documents";
         DirectoryLoaderLoad directory_path "**/*.txt";
         Print ("Error loading text files: " +:+ msg)],
        Ok docs))
  ∧ (∀ cls msg cls' msg',
     pdf = Raise (Exception cls msg) → txt = Raise (Exception cls' msg') →
     load_documents w directory_path
     = ([DirectoryLoaderLoad directory_path "**/*.pdf";
         Print ("Error loading PDF files: " +:+ msg);
         DirectoryLoaderLoad directory_path "**/*.txt";
         Print ("Error loading text files: " +:+ msg')],
        Ok [])).
Proof.
  intros pdf txt. subst pdf txt.
  repeat split; intros; unfold load_documents, try_except, call, print, bind, ret;
    repeat match goal with H : _ = _ |- _ => rewrite H; clear H end; simpl;
    by rewrite ?app_nil_r.
Qed.

Lemma load_documents_isolates_loader_failures_witness :
  load_documents Demo.corrupt_pdf "docs"
  = ([DirectoryLoaderLoad "docs" "**/*.pdf";
      Print "Error loading PDF files: EOF marker not found";
      DirectoryLoaderLoad "docs" "**/*.txt";
      Print "Loaded text documents"],
     Ok [Demo.notes])
  ∧ load_documents Demo.bad_text "docs"
  = ([DirectoryLoaderLoad "docs" "**/*.pdf";
      Print "Loaded PDF documents";
      DirectoryLoaderLoad "docs" "**/*.txt";
      Print "Error loading text files: Error loading notes.txt"],
     Ok [Demo.slides]).
Proof.
  split.
  - apply (proj1 (load_documents_isolates_loader_failures
                    Demo.corrupt_pdf "docs") "PdfReadError");
      reflexivity.
  - apply (proj1 (proj2 (load_documents_isolates_loader_failures
                           Demo.bad_text "docs")) "RuntimeError");
      reflexivity.
Defined.

End DocumentProcessorSpec.

(** ** Properties of rag_query.py *)

Module RagQuerySpec.
Import EmbeddingStorage RagQuery.

Section Assembly.

Implicit Types (relevant_docs : list (Document * float)).

(** The loop appends, in order, one block per pair and one source per
    pair that has one. *)
Lemma collect_from relevant_docs : ∀ context_parts sources,
  fold_left collect_step relevant_docs (context_parts, sources)
  = (context_parts ++ (context_block ∘ fst <$> relevant_docs),
     sources ++ omap source_of relevant_docs).
Proof.
  induction relevant_docs as [|[doc score] rest IH]; intros parts srcs; simpl.
  - by rewrite !app_nil_r.
  - rewrite IH. unfold source_of at 2; simpl.
    destruct (metadata doc !! "source"); simpl;
      by rewrite <- ?app_assoc.
Qed.

Lemma collect_eq relevant_docs :
  collect relevant_docs
  = (context_block ∘ fst <$> relevant_docs, omap source_of relevant_docs).
Proof. unfold collect. by rewrite collect_from. Qed.

Lemma elem_of_iterate_set_of (l : list value) (v : value) :
  v ∈ iterate (set_of l) ↔ v ∈ l.
Proof. unfold iterate, set_of. by rewrite elem_of_elements, elem_of_list_to_set. Qed.

(** The citation loop succeeds when every source is a string. *)
Lemma format_sources_total (l : list value) : ∀ i formatted,
  (∀ v, v ∈ l → ∃ s, v = VStr s) →
  ∃ out, format_sources i l formatted = Ok out.
Proof.
  induction l as [|v rest IH]; intros i formatted Hstr; simpl; [by eexists|].
  destruct (Hstr v) as [s ->]; [by left|]. simpl.
  apply IH. intros v' Hv'. apply Hstr. by right.
Qed.

Lemma format_sources_nil i formatted :
  format_sources i [] formatted = Ok formatted.
Proof. done. Qed.

End Assembly.

Section Runs.

Context (w : world).

(** The retrieval step makes no HTTP request. *)
Lemma retrieve_documents_no_post query top_k dir url model prompt :
  RequestsPost url model prompt ∉ trace (retrieve_documents w query top_k dir).
Proof.
  unfold retrieve_documents, get_embeddings, call, bind, ret, trace.
  destruct (check (hf_embeddings_check w _)) as [[]|e]; simpl.
  2: { intros Hin. apply list_elem_of_singleton in Hin. discriminate. }
  destruct (check (chroma_check w _)) as [[]|e']; simpl.
  2: { intros Hin. repeat (apply elem_of_cons in Hin as [Hin|Hin]; [discriminate|]).
       by apply elem_of_nil in Hin. }
  destruct (similarity_search_with_score w _ _ _) as [docs|e'']; simpl;
    intros Hin;
    repeat (apply elem_of_cons in Hin as [Hin|Hin]; [discriminate|]);
    by apply elem_of_nil in Hin.
Qed.

(** [query_ollama] makes exactly one HTTP request, whatever comes back. *)
Lemma query_ollama_trace prompt model :
  trace (query_ollama w prompt model) = [RequestsPost ollama_url model prompt].
Proof.
  unfold query_ollama, call, bind, lift, ret, trace.
  destruct (requests_post w _ _ _) as [response|e]; [|done].
  destruct (decide _) as [Hok|Hko]; [|done].
  destruct (json response) as [body|e]; [|done]. simpl.
  by destruct (getitem body "response").
Qed.

(** A run of [rag_query] once retrieval and citation formatting went
    through: one generation request, whose outcome decides the run's. *)
Lemma rag_query_after_retrieval user_query model top_k t relevant_docs citations :
  retrieve_documents w user_query top_k "./chroma_db" = (t, Ok relevant_docs) →
  format_sources 0 (iterate (set_of (omap source_of relevant_docs))) []
    = Ok citations →
  let prompt :=
    prompt_template (join (nl +:+ nl) (context_block ∘ fst <$> relevant_docs))
      (join ", " citations) user_query in
  rag_query w user_query model top_k
  = (t ++ [RequestsPost ollama_url model prompt],
     match outcome (query_ollama w prompt model) with
     | Ok a => Ok {| answer := a;
                     sources := iterate (set_of (omap source_of relevant_docs)) |}
     | Raise e => Raise e
     end).
Proof.
  intros Hret Hfmt prompt. unfold rag_query. rewrite Hret.
  unfold bind at 1. rewrite collect_eq. cbv beta iota zeta.
  rewrite Hfmt. unfold lift, bind at 1.
  pose proof (query_ollama_trace prompt model) as Htr.
  fold prompt. unfold trace, outcome in *.
  destruct (query_ollama w prompt model) as [tq [a|e]]; simpl in *; subst tq;
    by rewrite ?app_nil_r.
Qed.

End Runs.

(** C4: the [sources] list that [rag_query] returns holds every source
    value found on a retrieved chunk, each one once however many chunks
    repeat it, and nothing else; a chunk with no [source] key adds
    nothing. *)
Theorem rag_query_sources_distinct (w : world) (user_query model : string)
    (top_k : Z) (t0 t : list event) (relevant_docs : list (Document * float))
    (result : RagAnswer) :
  retrieve_documents w user_query top_k "./chroma_db" = (t0, Ok relevant_docs) →
  rag_query w user_query model top_k = (t, Ok result) →
  NoDup (sources result)
  ∧ (∀ s, s ∈ sources result ↔
          ∃ doc score, (doc, score) ∈ relevant_docs
                       ∧ metadata doc !! "source" = Some s).
Proof.
  intros Hret Hrun. unfold rag_query in Hrun. rewrite Hret in Hrun.
  unfold bind at 1 in Hrun. rewrite collect_eq in Hrun.
  cbv beta iota zeta in Hrun.
  destruct (format_sources 0 _ []) as [citations|e]; simpl in Hrun;
    [|discriminate].
  destruct (query_ollama w _ model) as [tq [a|e]]; simpl in Hrun;
    [|discriminate].
  injection Hrun as _ <-. simpl. split.
  - apply NoDup_elements.
  - intros s. rewrite elem_of_iterate_set_of, list_elem_of_omap. split.
    + intros [[doc score] [Hin Hsrc]]. by exists doc, score.
    + intros (doc & score & Hin & Hsrc). by exists (doc, score).
Qed.

Lemma rag_query_sources_distinct_witness :
  ∃ t result,
    rag_query Demo.up "What is RAG?" "llama3:8b" 5 = (t, Ok result)
    ∧ NoDup (sources result)
    ∧ (∀ s, s ∈ sources result ↔
            ∃ doc score,
              (doc, score) ∈ [(Demo.stored Demo.notes "notes.txt" 0, 1%Z);
                              (Demo.scrap, 2%Z);
                              (Demo.stored Demo.notes "notes.txt" 0, 3%Z);
                              (Demo.stored Demo.slides "slides.pdf" 1, 4%Z)]
              ∧ metadata doc !! "source" = Some s).
Proof.
  eexists _, _. split; [vm_compute; reflexivity|].
  eapply (rag_query_sources_distinct Demo.up "What is RAG?" "llama3:8b" 5).
  - vm_compute. reflexivity.
  - vm_compute. reflexivity.
Defined.

(** C5: when the retrieval step raises, [rag_query] raises the same
    error and its run contains no HTTP request: [query_ollama] is never
    entered. *)
Theorem rag_query_retrieval_failure_skips_generation (w : world)
    (user_query model : string) (top_k : Z) (t : list event) (e : exn) :
  retrieve_documents w user_query top_k "./chroma_db" = (t, Raise e) →
  rag_query w user_query model top_k = (t, Raise e)
  ∧ ∀ url m prompt,
      RequestsPost url m prompt ∉ trace (rag_query w user_query model top_k).
Proof.
  intros Hret.
  assert (Hrun : rag_query w user_query model top_k = (t, Raise e)).
  { unfold rag_query. by rewrite Hret. }
  split; [done|]. intros url m prompt. rewrite Hrun.
  pose proof (retrieve_documents_no_post w user_query top_k "./chroma_db"
                url m prompt) as Hno.
  by rewrite Hret in Hno.
Qed.

Lemma rag_query_retrieval_failure_skips_generation_witness :
  rag_query Demo.no_index "What is RAG?" "llama3:8b" 5
  = ([HuggingFaceEmbeddingsInit "all-MiniLM-L6-v2"; ChromaInit "./chroma_db"],
     Raise (Exception "InternalError" "could not open the collection"))
  ∧ ∀ url m prompt,
      RequestsPost url m prompt
      ∉ trace (rag_query Demo.no_index "What is RAG?" "llama3:8b" 5).
Proof.
  apply (rag_query_retrieval_failure_skips_generation Demo.no_index
           "What is RAG?" "llama3:8b" 5).
  reflexivity.
Defined.

(** C6: on a response whose status is not 200, [query_ollama] returns
    the string made of ["Error: "] followed by the raw body; on status
    200 it returns the [response] field of the decoded body, unchanged. *)
Theorem query_ollama_by_status (w : world) (prompt model : string)
    (response : Response) :
  requests_post w ollama_url model prompt = Ok response →
  (status_code response ≠ 200%Z →
     query_ollama w prompt model
     = ([RequestsPost ollama_url model prompt],
        Ok (VStr ("Error: " +:+ text response))))
  ∧ (status_code response = 200%Z →
     ∀ fields v,
       json response = Ok (JObject fields) →
       fields !! "response" = Some v →
       query_ollama w prompt model
       = ([RequestsPost ollama_url model prompt], Ok v)).
Proof.
  intros Hpost. unfold query_ollama, call, bind, lift, ret. rewrite Hpost.
  split.
  - intros Hne. by destruct (decide _).
  - intros Heq fields v Hjson Hfield.
    destruct (decide _); [|done]. rewrite Hjson. simpl. by rewrite Hfield.
Qed.

Lemma query_ollama_by_status_witness :
  query_ollama Demo.service_down "Why?" "llama3:8b"
  = ([RequestsPost ollama_url "llama3:8b" "Why?"],
     Ok (VStr "Error: model is loading"))
  ∧ query_ollama Demo.up "Why?" "llama3:8b"
  = ([RequestsPost ollama_url "llama3:8b" "Why?"],
     Ok (VStr "Retrieval first.")).
Proof.
  split.
  - apply (proj1 (query_ollama_by_status Demo.service_down "Why?" "llama3:8b"
                    Demo.unavailable eq_refl)).
    vm_compute. discriminate.
  - apply (proj2 (query_ollama_by_status Demo.up "Why?" "llama3:8b"
                    Demo.generated eq_refl) eq_refl
             {["response" := VStr "Retrieval first."]}).
    + reflexivity.
    + reflexivity.
Defined.

(** [join] is the library's [String.concat]. *)
Lemma join_concat (sep : string) (parts : list string) :
  join sep parts = String.concat sep parts.
Proof.
  induction parts as [|p rest IH]; [done|].
  simpl. destruct rest; [done|]. by rewrite IH.
Qed.

(** C9: the prompt sent by [rag_query] is the fixed text in which the
    context section, under [CONTEXT:], holds one block per retrieved pair
    in the order retrieval ranked them, the blocks joined by two line
    breaks; a block is the label [Document: ], the chunk's [file_name] or
    the literal [Unknown] when it has none, a line break, the label
    [Content: ] and the chunk's text. *)
Theorem rag_query_context_blocks (w : world) (user_query model : string)
    (top_k : Z) (t : list event) (relevant_docs : list (Document * float)) :
  retrieve_documents w user_query top_k "./chroma_db" = (t, Ok relevant_docs) →
  (∀ doc score v, (doc, score) ∈ relevant_docs →
     metadata doc !! "source" = Some v → ∃ s, v = VStr s) →
  let LF := String "010" EmptyString in
  let prompt_of (context citations : string) :=
    "You are an educational assistant that answers questions based on course materials."
    +:+ LF +:+
    "Use the following context to answer the question, and cite your sources where possible."
    +:+ LF +:+ LF +:+ "CONTEXT:" +:+ LF +:+ context +:+ LF +:+ LF +:+
    "SOURCES:" +:+ LF +:+ citations +:+ LF +:+ LF +:+
    "QUESTION:" +:+ LF +:+ user_query +:+ LF +:+ LF +:+ "ANSWER:" +:+ LF in
  let block (pair : Document * float) :=
    "Document: "
    +:+ match metadata pair.1 !! "file_name" with
        | Some (VStr file_name) => file_name
        | Some (VInt n) => pretty n
        | None => "Unknown"
        end
    +:+ LF +:+ "Content: " +:+ page_content pair.1 in
  ∃ citations,
    trace (rag_query w user_query model top_k)
    = t ++ [RequestsPost "http://localhost:11434/api/generate" model
              (prompt_of (String.concat (LF +:+ LF) (block <$> relevant_docs))
                 citations)].
Proof.
  intros Hret Hstr LF prompt_of block.
  destruct (format_sources_total
              (iterate (set_of (omap source_of relevant_docs))) 0 [])
    as [citations Hfmt].
  { intros v Hv. apply elem_of_iterate_set_of, list_elem_of_omap in Hv
      as [[doc score] [Hin Hsrc]].
    eauto. }
  exists (join ", " citations).
  rewrite (rag_query_after_retrieval w _ model _ _ _ _ Hret Hfmt). simpl.
  assert (Hblocks : context_block ∘ fst <$> relevant_docs
                    = block <$> relevant_docs).
  { apply list_fmap_ext. intros i [doc score] _.
    unfold block, context_block; simpl.
    by destruct (metadata doc !! "file_name") as [[name|n]|]. }
  by rewrite Hblocks, join_concat.
Qed.

Lemma rag_query_context_blocks_witness :
  let LF := String "010" EmptyString in
  let prompt_of (context citations : string) :=
    "You are an educational assistant that answers questions based on course materials."
    +:+ LF +:+
    "Use the following context to answer the question, and cite your sources where possible."
    +:+ LF +:+ LF +:+ "CONTEXT:" +:+ LF +:+ context +:+ LF +:+ LF +:+
    "SOURCES:" +:+ LF +:+ citations +:+ LF +:+ LF +:+
    "QUESTION:" +:+ LF +:+ "What is RAG?" +:+ LF +:+ LF +:+ "ANSWER:" +:+ LF in
  ∃ citations,
    trace (rag_query Demo.up "What is RAG?" "llama3:8b" 5)
    = [HuggingFaceEmbeddingsInit "all-MiniLM-L6-v2"; ChromaInit "./chroma_db";
       SimilaritySearch "What is RAG?" 5]
      ++ [RequestsPost "http://localhost:11434/api/generate" "llama3:8b"
            (prompt_of
               ("Document: notes.txt" +:+ LF
                +:+ "Content: Retrieval grounds the answer." +:+ LF +:+ LF
                +:+ "Document: Unknown" +:+ LF
                +:+ "Content: No lineage." +:+ LF +:+ LF
                +:+ "Document: notes.txt" +:+ LF
                +:+ "Content: Retrieval grounds the answer." +:+ LF +:+ LF
                +:+ "Document: slides.pdf" +:+ LF
                +:+ "Content: Chunks overlap.")
               citations)].
Proof.
  apply (rag_query_context_blocks Demo.up "What is RAG?" "llama3:8b" 5
           [HuggingFaceEmbeddingsInit "all-MiniLM-L6-v2";
            ChromaInit "./chroma_db"; SimilaritySearch "What is RAG?" 5]
           [(Demo.stored Demo.notes "notes.txt" 0, 1%Z); (Demo.scrap, 2%Z);
            (Demo.stored Demo.notes "notes.txt" 0, 3%Z);
            (Demo.stored Demo.slides "slides.pdf" 1, 4%Z)]).
  - reflexivity.
  - intros doc score v Hin Hsrc.
    repeat (apply elem_of_cons in Hin as [Hin|Hin];
            [injection Hin as -> _; vm_compute in Hsrc;
             try discriminate; injection Hsrc as <-; by eexists|]).
    by apply elem_of_nil in Hin.
Defined.

(** C10: when retrieval returns the empty list, [rag_query] still sends
    one generation request, whose prompt is the fixed text with nothing
    in its context section and nothing in its citation section, and the
    run ends as that request does: an answer comes back with an empty
    [sources] list. *)
Theorem rag_query_empty_retrieval (w : world) (user_query model : string)
    (top_k : Z) (t : list event) :
  retrieve_documents w user_query top_k "./chroma_db" = (t, Ok []) →
  let LF := String "010" EmptyString in
  let prompt_of (context citations : string) :=
    "You are an educational assistant that answers questions based on course materials."
    +:+ LF +:+
    "Use the following context to answer the question, and cite your sources where possible."
    +:+ LF +:+ LF +:+ "CONTEXT:" +:+ LF +:+ context +:+ LF +:+ LF +:+
    "SOURCES:" +:+ LF +:+ citations +:+ LF +:+ LF +:+
    "QUESTION:" +:+ LF +:+ user_query +:+ LF +:+ LF +:+ "ANSWER:" +:+ LF in
  let prompt := prompt_of "" "" in
  trace (rag_query w user_query model top_k)
  = t ++ [RequestsPost "http://localhost:11434/api/generate" model prompt]
  ∧ (∀ a, outcome (query_ollama w prompt model) = Ok a →
       outcome (rag_query w user_query model top_k)
       = Ok {| answer := a; sources := [] |})
  ∧ (∀ e, outcome (query_ollama w prompt model) = Raise e →
       outcome (rag_query w user_query model top_k) = Raise e).
Proof.
  intros Hret LF prompt_of prompt.
  assert (Hfmt : format_sources 0 (iterate (set_of (omap source_of []))) []
                 = Ok []) by (vm_compute; reflexivity).
  rewrite (rag_query_after_retrieval w _ model _ _ _ _ Hret Hfmt).
  change (iterate (set_of (omap source_of []))) with (@nil value).
  change (prompt_template (join (nl +:+ nl) (context_block ∘ fst <$> []))
            (join ", " []) user_query) with prompt.
  simpl. repeat split.
  - intros a Ha. by rewrite Ha.
  - intros e He. by rewrite He.
Qed.

Lemma rag_query_empty_retrieval_witness :
  let LF := String "010" EmptyString in
  let prompt_of (context citations : string) :=
    "You are an educational assistant that answers questions based on course materials."
    +:+ LF +:+
    "Use the following context to answer the question, and cite your sources where possible."
    +:+ LF +:+ LF +:+ "CONTEXT:" +:+ LF +:+ context +:+ LF +:+ LF +:+
    "SOURCES:" +:+ LF +:+ citations +:+ LF +:+ LF +:+
    "QUESTION:" +:+ LF +:+ "What is RAG?" +:+ LF +:+ LF +:+ "ANSWER:" +:+ LF in
  let prompt := prompt_of "" "" in
  trace (rag_query Demo.empty_index "What is RAG?" "llama3:8b" 5)
  = [HuggingFaceEmbeddingsInit "all-MiniLM-L6-v2"; ChromaInit "./chroma_db";
     SimilaritySearch "What is RAG?" 5]
    ++ [RequestsPost "http://localhost:11434/api/generate" "llama3:8b" prompt]
  ∧ outcome (rag_query Demo.empty_index "What is RAG?" "llama3:8b" 5)
    = Ok {| answer := VStr "Retrieval first."; sources := [] |}.
Proof.
  intros LF prompt_of prompt.
  destruct (rag_query_empty_retrieval Demo.empty_index "What is RAG?"
              "llama3:8b" 5
              [HuggingFaceEmbeddingsInit "all-MiniLM-L6-v2";
               ChromaInit "./chroma_db"; SimilaritySearch "What is RAG?" 5]
              eq_refl) as (Htrace & Hok & _).
  split; [exact Htrace|]. apply Hok. reflexivity.
Defined.

End RagQuerySpec.

(** ** Properties of main.py and interactive.py *)

Module MainSpec.
Import Main.

(** With no database directory, [main] prints the message and returns:
    nothing of the retrieval step runs, and nothing is raised. *)
Lemma main_query_missing_db (w : world) (query model : string) (top_k : Z)
    (db_path : string) :
  isdir w db_path = false →
  main w (ArgsQuery query model top_k db_path)
  = ([IsDir db_path;
      Print ("Error: Vector database at " +:+ db_path
             +:+ " does not exist. Process documents first.")],
     Ok tt).
Proof. intros Hdir. unfold main, call, bind, print. by rewrite Hdir. Qed.

(** The same check in interactive.py ends the process with status 1. *)
Lemma script_missing_db (w : world) (model : string) (top_k : Z)
    (db_path : string) (stdin : list string) :
  isdir w db_path = false →
  Interactive.script w model top_k db_path stdin
  = ([IsDir db_path;
      Print ("Error: Vector database at " +:+ db_path
             +:+ " does not exist. Process documents first.")],
     Raise (SystemExit 1)).
Proof.
  intros Hdir. unfold Interactive.script, call, bind, print, raise.
  by rewrite Hdir.
Qed.

(** C7, evaluated: [main.py query "What is RAG?" --db-path ./missing_db]
    with no such directory prints the error and makes no retrieval or
    network call, but the process ends with status 0; interactive.py on
    the same path ends with status 1. *)
Theorem main_query_missing_db_exits_zero :
  let a := ArgsQuery "What is RAG?" "llama3:8b" 5 "./missing_db" in
  isdir Demo.up "./missing_db" = false
  ∧ main Demo.up a
    = ([IsDir "./missing_db";
        Print "Error: Vector database at ./missing_db does not exist. Process documents first."],
       Ok tt)
  ∧ exit_status (main Demo.up a) = 0%Z
  ∧ exit_status (Interactive.script Demo.up "llama3:8b" 5 "./missing_db" [])
    = 1%Z.
Proof. vm_compute. repeat split; reflexivity. Qed.

End MainSpec.

(** ** Traces and outcomes of composed computations *)

Module Facts.

Section Monad.

Context {A B : Type}.
Implicit Types (m : M A) (k : A → M B) (P : event → Prop).

Lemma trace_bind m k :
  trace (bind m k)
  = trace m ++ match outcome m with
               | Ok a => trace (k a)
               | Raise _ => []
               end.
Proof.
  destruct m as [t [a|e]]; unfold bind, trace, outcome; simpl.
  - by destruct (k a).
  - by rewrite app_nil_r.
Qed.

Lemma outcome_bind m k :
  outcome (bind m k)
  = match outcome m with
    | Ok a => outcome (k a)
    | Raise e => Raise e
    end.
Proof.
  destruct m as [t [a|e]]; unfold bind, outcome; simpl; [|done].
  by destruct (k a).
Qed.

(** A property of every event carries over a sequence. *)
Lemma Forall_trace_bind P m k :
  Forall P (trace m) →
  (∀ a, outcome m = Ok a → Forall P (trace (k a))) →
  Forall P (trace (bind m k)).
Proof.
  intros Hm Hk. rewrite trace_bind. apply Forall_app. split; [done|].
  destruct (outcome m) as [a|e]; [by apply Hk|constructor].
Qed.

End Monad.

Lemma Forall_trace_try_except {A} (P : event → Prop) (body : M A)
    (handler : exn → M A) :
  Forall P (trace body) →
  (∀ e, Forall P (trace (handler e))) →
  Forall P (trace (try_except body handler)).
Proof.
  intros Hb Hh. destruct body as [t [a|[cls msg| |code]]]; simpl; try done.
  specialize (Hh (Exception cls msg)).
  destruct (handler (Exception cls msg)) as [t' r]. simpl in *.
  apply Forall_app. by split.
Qed.

Lemma Forall_trace_call {A} (P : event → Prop) (ev : event) (r : result A) :
  P ev → Forall P (trace (call ev r)).
Proof. intros. by repeat constructor. Qed.

Lemma outcome_call {A} (ev : event) (r : result A) : outcome (call ev r) = r.
Proof. done. Qed.

Lemma trace_call {A} (ev : event) (r : result A) : trace (call ev r) = [ev].
Proof. done. Qed.

Lemma outcome_print_bind {B} (line : string) (k : unit → M B) :
  outcome (bind (print line) k) = outcome (k tt).
Proof. by rewrite outcome_bind. Qed.

Lemma Forall_trace_nil {A} (P : event → Prop) (r : result A) :
  Forall P (trace (lift r)).
Proof. constructor. Qed.

End Facts.

(** ** More on document_processor.py *)

Module DocumentProcessorMore.
Import DocumentProcessor.

Section Stamping.

Implicit Types (h : heap) (chunks : list DocumentObj) (c : DocumentObj).

Lemma get_metadata_set_same h c c' key v :
  obj_metadata c' = obj_metadata c →
  get_metadata (set_metadata h c key v) c' = <[key := v]> (get_metadata h c').
Proof.
  intros Heq. unfold get_metadata, set_metadata. rewrite Heq.
  by rewrite lookup_insert_eq.
Qed.

Lemma get_metadata_set_other h c c' key v :
  obj_metadata c' ≠ obj_metadata c →
  get_metadata (set_metadata h c key v) c' = get_metadata h c'.
Proof.
  intros Hne. unfold get_metadata, set_metadata.
  by rewrite lookup_insert_ne.
Qed.

(** Writing another key leaves [source] as it was, in every dict. *)
Lemma source_after_set h c c' key v :
  key ≠ "source" →
  get_metadata (set_metadata h c key v) c' !! "source"
  = get_metadata h c' !! "source".
Proof.
  intros Hkey. destruct (decide (obj_metadata c' = obj_metadata c)) as [Heq|Hne].
  - rewrite get_metadata_set_same by done. by rewrite lookup_insert_ne.
  - by rewrite get_metadata_set_other.
Qed.

(** The dict of each chunk after the loop, when no two chunks share one. *)
Lemma stamp_chunks_dict chunks : ∀ i h h' k c,
  stamp_chunks i chunks h = Ok h' →
  NoDup (obj_metadata <$> chunks) →
  chunks !! k = Some c →
  get_metadata h' c
  = <["chunk_id" := VInt (Z.of_nat (i + k))]>
      match get_metadata h c !! "source" with
      | Some (VStr s) =>
          <["file_name" := VStr (basename_str s)]> (get_metadata h c)
      | _ => get_metadata h c
      end.
Proof.
  induction chunks as [|c0 rest IH]; intros i h h' k c Hrun Hnd Hk; [done|].
  rewrite fmap_cons in Hnd. apply NoDup_cons in Hnd as [Hfresh Hnd].
  simpl in Hrun.
  destruct k as [|k]; simpl in Hk.
  - inversion Hk; subst c0. rewrite Nat.add_0_r.
    destruct (get_metadata h c !! "source") as [[s|n]|]; simpl in Hrun;
      [| discriminate |].
    + unfold get_metadata at 1.
      rewrite (DocumentProcessorSpec.stamp_chunks_frame _ _ _ _ _ Hrun Hfresh).
      unfold set_metadata at 1. rewrite lookup_insert_eq. simpl.
      by rewrite get_metadata_set_same.
    + unfold get_metadata at 1.
      rewrite (DocumentProcessorSpec.stamp_chunks_frame _ _ _ _ _ Hrun Hfresh).
      unfold set_metadata at 1. by rewrite lookup_insert_eq.
  - assert (Hne : obj_metadata c ≠ obj_metadata c0).
    { intros Heq. apply Hfresh. rewrite <- Heq.
      apply list_elem_of_fmap. exists c. split; [done|].
      by eapply list_elem_of_lookup_2. }
    replace (i + S k)%nat with (S i + k)%nat by lia.
    destruct (get_metadata h c0 !! "source") as [[s|n]|]; simpl in Hrun;
      [| discriminate |];
      rewrite (IH _ _ _ _ _ Hrun Hnd Hk);
      by rewrite !get_metadata_set_other.
Qed.

(** The loop goes through when every chunk's [source] is a string. *)
Lemma stamp_chunks_ok chunks : ∀ i h,
  (∀ c, c ∈ chunks → ∀ v, get_metadata h c !! "source" = Some v →
        ∃ s, v = VStr s) →
  ∃ h', stamp_chunks i chunks h = Ok h'.
Proof.
  induction chunks as [|c0 rest IH]; intros i h Hstr; simpl; [by eexists|].
  destruct (get_metadata h c0 !! "source") as [v|] eqn:Hsrc.
  - destruct (Hstr c0 (ltac:(by left)) v Hsrc) as [s ->]. simpl.
    apply IH. intros c Hc v Hv. rewrite !source_after_set in Hv by done.
    apply (Hstr c); [by right|done].
  - apply IH. intros c Hc v Hv. rewrite source_after_set in Hv by done.
    apply (Hstr c); [by right|done].
Qed.

(** It raises as soon as one chunk's [source] is an integer. *)
Lemma stamp_chunks_int_source chunks : ∀ i h c n,
  c ∈ chunks →
  get_metadata h c !! "source" = Some (VInt n) →
  stamp_chunks i chunks h = Raise type_error.
Proof.
  induction chunks as [|c0 rest IH]; intros i h c n Hc Hsrc.
  - by apply elem_of_nil in Hc.
  - simpl. destruct (get_metadata h c0 !! "source") as [[s|m]|] eqn:Hsrc0;
      simpl; [| done |].
    + apply elem_of_cons in Hc as [->|Hc]; [congruence|].
      apply (IH _ _ c n Hc). by rewrite !source_after_set.
    + apply elem_of_cons in Hc as [->|Hc]; [congruence|].
      apply (IH _ _ c n Hc). by rewrite source_after_set.
Qed.

End Stamping.

(** X1: what [split_documents] returns for each chunk of the splitter:
    the same text, and the splitter's metadata with [chunk_id] set to the
    position and, when the chunk has a [source], [file_name] set to its
    base name; every other key is as the splitter left it. *)
Theorem split_documents_stamps_metadata (w : world) (documents : list Document)
    (chunk_size chunk_overlap : Z) (h : heap) (objs : list DocumentObj)
    (t : list event) (chunks : list Document) :
  text_splitter_split w chunk_size chunk_overlap separators documents
    = Ok (h, objs) →
  NoDup (obj_metadata <$> objs) →
  split_documents w documents chunk_size chunk_overlap = (t, Ok chunks) →
  ∀ i obj, objs !! i = Some obj →
    ∃ chunk,
      chunks !! i = Some chunk
      ∧ page_content chunk = obj_page_content obj
      ∧ metadata chunk
        = <["chunk_id" := VInt (Z.of_nat i)]>
            match get_metadata h obj !! "source" with
            | Some (VStr s) =>
                <["file_name" := VStr (basename_str s)]> (get_metadata h obj)
            | _ => get_metadata h obj
            end.
Proof.
  intros Hsplit Hnd Hrun i obj Hobj.
  unfold split_documents, call, bind, lift in Hrun. rewrite Hsplit in Hrun.
  destruct (check _) as [[]|e]; simpl in Hrun; [|discriminate].
  destruct (stamp_chunks 0 objs h) as [h'|e] eqn:Hstamp; simpl in Hrun;
    [|discriminate].
  injection Hrun as _ <-.
  exists (snapshot h' obj). rewrite list_lookup_fmap, Hobj. simpl.
  repeat split.
  apply (stamp_chunks_dict _ _ _ _ _ _ Hstamp Hnd Hobj).
Qed.

Lemma split_documents_stamps_metadata_witness :
  ∃ chunk,
    match outcome (split_documents Demo.up [Demo.notes; Demo.scrap] 1000 200) with
    | Ok chunks => chunks !! 1%nat = Some chunk
    | Raise _ => False
    end
    ∧ page_content chunk = "No lineage."
    ∧ metadata chunk = <["chunk_id" := VInt 1]> ∅.
Proof.
  assert (Hnd : NoDup (obj_metadata
                         <$> (Demo.one_chunk_each [Demo.notes; Demo.scrap]).2)).
  { apply (bool_decide_unpack _). vm_compute. exact I. }
  destruct (split_documents_stamps_metadata Demo.up [Demo.notes; Demo.scrap]
              1000 200
              (Demo.one_chunk_each [Demo.notes; Demo.scrap]).1
              (Demo.one_chunk_each [Demo.notes; Demo.scrap]).2
              (trace (split_documents Demo.up [Demo.notes; Demo.scrap] 1000 200))
              (Demo.stored Demo.notes "notes.txt" 0
                 :: [{| page_content := "No lineage.";
                        metadata := <["chunk_id" := VInt 1]> ∅ |}])
              eq_refl Hnd eq_refl 1%nat
              {| obj_page_content := "No lineage."; obj_metadata := 2%positive |}
              eq_refl)
    as (chunk & Hchunk & Htext & Hmeta).
  exists chunk. split; [exact Hchunk|]. split; [exact Htext|exact Hmeta].
Defined.

(** X2: once the splitter has answered, [split_documents] returns one
    document per chunk when every [source] is a string, and raises
    [TypeError], returning nothing, when some chunk's [source] is an
    integer. *)
Theorem split_documents_needs_string_sources (w : world)
    (documents : list Document) (chunk_size chunk_overlap : Z) (h : heap)
    (objs : list DocumentObj) :
  text_splitter_check w chunk_size chunk_overlap separators = None →
  text_splitter_split w chunk_size chunk_overlap separators documents
    = Ok (h, objs) →
  ((∀ obj, obj ∈ objs → ∀ v, get_metadata h obj !! "source" = Some v →
           ∃ s, v = VStr s) →
   ∃ chunks, outcome (split_documents w documents chunk_size chunk_overlap)
             = Ok chunks
             ∧ length chunks = length objs)
  ∧ (∀ obj n, obj ∈ objs → get_metadata h obj !! "source" = Some (VInt n) →
     outcome (split_documents w documents chunk_size chunk_overlap)
     = Raise type_error).
Proof.
  intros Hcheck Hsplit.
  unfold split_documents, call, bind, lift, outcome.
  rewrite Hcheck, Hsplit. simpl. split.
  - intros Hstr. destruct (stamp_chunks_ok objs 0 h Hstr) as [h' ->]. simpl.
    eexists. split; [done|]. by rewrite length_fmap.
  - intros obj n Hobj Hsrc.
    by rewrite (stamp_chunks_int_source objs 0 h obj n Hobj Hsrc).
Qed.

Lemma split_documents_needs_string_sources_witness :
  (∃ chunks, outcome (split_documents Demo.up [Demo.notes] 1000 200) = Ok chunks
             ∧ length chunks = 1%nat)
  ∧ outcome (split_documents Demo.up [Demo.numbered] 1000 200)
    = Raise type_error.
Proof.
  split.
  - apply (proj1 (split_documents_needs_string_sources Demo.up [Demo.notes]
                    1000 200 _ _ eq_refl eq_refl)).
    intros obj Hobj v Hv. apply list_elem_of_singleton in Hobj. subst obj.
    vm_compute in Hv. injection Hv as <-. by eexists.
  - apply (proj2 (split_documents_needs_string_sources Demo.up [Demo.numbered]
                    1000 200 _ _ eq_refl eq_refl)
             {| obj_page_content := "Row 7."; obj_metadata := 1%positive |} 7%Z).
    + by left.
    + reflexivity.
Defined.

(** X3: [load_documents] returns a list unless a loader raised
    [KeyboardInterrupt] or [SystemExit].  Either it returns what the
    loaders that succeeded gave, PDF documents first, and every loader
    that raised did so with an [Exception]; or it raises an interrupt or
    an exit, and that error is the one a loader raised. *)
Theorem load_documents_never_raises_exception (w : world)
    (directory_path : string) :
  let pdf := directory_loader_load w directory_path "**/*.pdf" PyPDFLoader in
  let txt := directory_loader_load w directory_path "**/*.txt" TextLoader in
  (outcome (load_documents w directory_path)
   = Ok (match pdf with Ok docs => docs | Raise _ => [] end
         ++ match txt with Ok docs => docs | Raise _ => [] end)
   ∧ ∀ e, pdf = Raise e ∨ txt = Raise e → ∃ cls msg, e = Exception cls msg)
  ∨ (∃ e, outcome (load_documents w directory_path) = Raise e
          ∧ (e = KeyboardInterrupt ∨ ∃ code, e = SystemExit code)
          ∧ (pdf = Raise e ∨ txt = Raise e)).
Proof.
  intros pdf txt. subst pdf txt.
  unfold load_documents, try_except, call, print, bind, ret, outcome.
  destruct (directory_loader_load w directory_path "**/*.pdf" PyPDFLoader)
    as [pdf|[c m| |code]];
    destruct (directory_loader_load w directory_path "**/*.txt" TextLoader)
      as [txt|[c' m'| |code']];
    simpl;
    first
      [ left; split; [by rewrite ?app_nil_r|];
        intros e [He|He]; inversion He; by eexists _, _
      | right; eexists; split; [done|]; split; eauto ].
Qed.

(** X4: when both loaders succeed, the PDF documents come first and the
    text documents after them, each group in its loader's order. *)
Theorem load_documents_pdf_then_text (w : world) (directory_path : string)
    (pdf txt : list Document) :
  directory_loader_load w directory_path "**/*.pdf" PyPDFLoader = Ok pdf →
  directory_loader_load w directory_path "**/*.txt" TextLoader = Ok txt →
  load_documents w directory_path
  = ([DirectoryLoaderLoad directory_path "**/*.pdf";
      Print "Loaded PDF documents";
      DirectoryLoaderLoad directory_path "**/*.txt";
      Print "Loaded text documents"],
     Ok (pdf ++ txt)).
Proof.
  intros Hpdf Htxt.
  unfold load_documents, try_except, call, print, bind, ret.
  by rewrite Hpdf, Htxt.
Qed.

Lemma load_documents_pdf_then_text_witness :
  load_documents Demo.up "docs"
  = ([DirectoryLoaderLoad "docs" "**/*.pdf";
      Print "Loaded PDF documents";
      DirectoryLoaderLoad "docs" "**/*.txt";
      Print "Loaded text documents"],
     Ok [Demo.slides; Demo.notes]).
Proof.
  apply (load_documents_pdf_then_text Demo.up "docs" [Demo.slides] [Demo.notes]);
    reflexivity.
Defined.

(** X5: an error of the PDF loader that is not an [Exception] (an
    interrupt, an exit) is not caught: it leaves [load_documents] at once
    and the text loader is never run. *)
Theorem load_documents_interrupt_propagates (w : world)
    (directory_path : string) (e : exn) :
  (∀ cls msg, e ≠ Exception cls msg) →
  directory_loader_load w directory_path "**/*.pdf" PyPDFLoader = Raise e →
  load_documents w directory_path
  = ([DirectoryLoaderLoad directory_path "**/*.pdf"], Raise e).
Proof.
  intros Hbase Hpdf.
  unfold load_documents, try_except, call, print, bind, ret. rewrite Hpdf.
  destruct e as [cls msg| |code]; [by destruct (Hbase cls msg)|done|done].
Qed.

Lemma load_documents_interrupt_propagates_witness :
  load_documents Demo.interrupted "docs"
  = ([DirectoryLoaderLoad "docs" "**/*.pdf"], Raise KeyboardInterrupt).
Proof.
  apply (load_documents_interrupt_propagates Demo.interrupted "docs"
           KeyboardInterrupt).
  - discriminate.
  - reflexivity.
Defined.

(** X6: a run of [process_directory] that returns is a run of
    [load_documents] followed by a run of [split_documents] on what was
    loaded, and the two counts it prints are the number of documents
    loaded and the number of chunks returned. *)
Theorem process_directory_reports_counts (w : world) (directory_path : string)
    (chunk_size chunk_overlap : Z) (t : list event) (chunks : list Document) :
  process_directory w directory_path chunk_size chunk_overlap = (t, Ok chunks) →
  ∃ tl documents ts,
    load_documents w directory_path = (tl, Ok documents)
    ∧ split_documents w documents chunk_size chunk_overlap = (ts, Ok chunks)
    ∧ t = [Print ("Processing documents in " +:+ directory_path +:+ "...")]
          ++ tl
          ++ [Print ("Loaded " +:+ pretty (length documents) +:+ " documents")]
          ++ ts
          ++ [Print ("Created " +:+ pretty (length chunks) +:+ " chunks")].
Proof.
  intros Hrun. unfold process_directory in Hrun.
  destruct (load_documents w directory_path) as [tl [documents|e]] eqn:Hload;
    [|by cbv in Hrun].
  destruct (split_documents w documents chunk_size chunk_overlap)
    as [ts [chunks'|e]] eqn:Hsplit.
  - exists tl, documents, ts. unfold print, call, bind, ret in Hrun.
    rewrite Hsplit in Hrun. simpl in Hrun.
    injection Hrun as <- <-. repeat split.
    simpl. by rewrite <- ?app_assoc.
  - unfold print, call, bind, ret in Hrun. rewrite Hsplit in Hrun.
    simpl in Hrun. discriminate.
Qed.

Lemma process_directory_reports_counts_witness :
  ∃ tl documents ts,
    load_documents Demo.up "docs" = (tl, Ok documents)
    ∧ split_documents Demo.up documents 1000 200
      = (ts, Ok [Demo.stored Demo.slides "slides.pdf" 0;
                 Demo.stored Demo.notes "notes.txt" 1])
    ∧ [Print "Processing documents in docs...";
       DirectoryLoaderLoad "docs" "**/*.pdf"; Print "Loaded PDF documents";
       DirectoryLoaderLoad "docs" "**/*.txt"; Print "Loaded text documents";
       Print "Loaded 2 documents";
       TextSplitterInit 1000 200; TextSplitterSplit 2;
       Print "Created 2 chunks"]
      = [Print "Processing documents in docs..."]
        ++ tl ++ [Print ("Loaded " +:+ pretty (length documents) +:+ " documents")]
        ++ ts ++ [Print "Created 2 chunks"].
Proof.
  apply (process_directory_reports_counts Demo.up "docs" 1000 200).
  vm_compute. reflexivity.
Defined.

End DocumentProcessorMore.

(** ** More on embedding_storage.py and rag_query.py *)

Module RagQueryMore.
Import EmbeddingStorage RagQuery.

Section Lemmas.

Context (w : world).

(** The events of a retrieval, in order; a failing step ends the list. *)
Lemma retrieve_documents_trace query top_k dir :
  trace (retrieve_documents w query top_k dir)
  `prefix_of` [HuggingFaceEmbeddingsInit "all-MiniLM-L6-v2"; ChromaInit dir;
               SimilaritySearch query top_k].
Proof.
  unfold retrieve_documents, get_embeddings, call, bind, ret, trace.
  destruct (check (hf_embeddings_check w _)) as [[]|e]; simpl.
  2: { by eexists [_; _]. }
  destruct (check (chroma_check w _)) as [[]|e]; simpl.
  2: { by eexists [_]. }
  destruct (similarity_search_with_score w _ _ _) as [docs|e]; simpl;
    by exists [].
Qed.

Lemma retrieve_documents_events query top_k dir ev :
  ev ∈ trace (retrieve_documents w query top_k dir) →
  ev = HuggingFaceEmbeddingsInit "all-MiniLM-L6-v2" ∨ ev = ChromaInit dir
  ∨ ev = SimilaritySearch query top_k.
Proof.
  intros Hin. destruct (retrieve_documents_trace query top_k dir) as [rest Heq].
  assert (Hin' : ev ∈ [HuggingFaceEmbeddingsInit "all-MiniLM-L6-v2";
                       ChromaInit dir; SimilaritySearch query top_k]).
  { rewrite Heq. apply elem_of_app. by left. }
  repeat (apply elem_of_cons in Hin' as [Hin'|Hin']; [by eauto|]).
  by apply elem_of_nil in Hin'.
Qed.

(** The events of a whole query: those of the retrieval, then at most the
    one HTTP request. *)
Lemma rag_query_events user_query model top_k ev :
  ev ∈ trace (rag_query w user_query model top_k) →
  ev = HuggingFaceEmbeddingsInit "all-MiniLM-L6-v2"
  ∨ ev = ChromaInit "./chroma_db"
  ∨ ev = SimilaritySearch user_query top_k
  ∨ ∃ prompt, ev = RequestsPost ollama_url model prompt.
Proof.
  unfold rag_query. rewrite Facts.trace_bind. intros Hin.
  apply elem_of_app in Hin as [Hin|Hin].
  { apply retrieve_documents_events in Hin.
    destruct Hin as [-> | [-> | ->]]; eauto. }
  destruct (outcome (retrieve_documents w user_query top_k "./chroma_db"))
    as [relevant_docs|e]; [|by apply elem_of_nil in Hin].
  destruct (collect relevant_docs) as [context_parts sources].
  rewrite Facts.trace_bind in Hin. simpl in Hin.
  destruct (format_sources 0 _ []) as [formatted|e];
    [|by apply elem_of_nil in Hin].
  rewrite Facts.trace_bind, RagQuerySpec.query_ollama_trace in Hin.
  apply elem_of_app in Hin as [Hin|Hin].
  - apply list_elem_of_singleton in Hin. eauto 10.
  - destruct (outcome (query_ollama w _ model)); by apply elem_of_nil in Hin.
Qed.

(** The citation loop, on string sources: one label per source, numbered
    on from [i + 1]. *)
Lemma format_sources_from (names : list string) : ∀ i formatted,
  format_sources i (VStr <$> names) formatted
  = Ok (formatted
        ++ imap (λ j name,
                   "[" +:+ pretty (i + j + 1)%nat +:+ "] " +:+ basename_str name)
             names).
Proof.
  induction names as [|name rest IH]; intros i formatted; simpl.
  - by rewrite app_nil_r.
  - rewrite IH, <- app_assoc. simpl. rewrite Nat.add_0_r.
    do 3 f_equal. apply imap_ext. intros j x _. simpl.
    by replace (S (i + j + 1))%nat with (i + S j + 1)%nat by lia.
Qed.

Lemma format_sources_int_source (l : list value) : ∀ i formatted n,
  VInt n ∈ l → format_sources i l formatted = Raise type_error.
Proof.
  induction l as [|v rest IH]; intros i formatted n Hin.
  - by apply elem_of_nil in Hin.
  - simpl. destruct v as [s|m]; simpl; [|done].
    apply elem_of_cons in Hin as [Heq|Hin]; [discriminate|]. by eapply IH.
Qed.

(** The printing loop, on string sources. *)
Lemma print_sources_from (names : list string) : ∀ i,
  print_sources i (VStr <$> names)
  = (imap (λ j name,
             Print ("[" +:+ pretty (i + j + 1)%nat +:+ "] " +:+ basename_str name))
       names,
     Ok tt).
Proof.
  induction names as [|name rest IH]; intros i; simpl; [done|].
  unfold bind, lift, print, call. simpl. rewrite IH. simpl.
  rewrite Nat.add_0_r. do 2 f_equal. apply imap_ext. intros j x _. simpl.
  by replace (S (i + j + 1))%nat with (i + S j + 1)%nat by lia.
Qed.

End Lemmas.

(** X7: [retrieve_documents] builds the embedding model, then opens the
    store, then searches, and stops at the first step that raises; when
    both constructions succeed it returns exactly what the search
    answered for the given query and [top_k], unchanged. *)
Theorem retrieve_documents_steps (w : world) (query : string) (top_k : Z)
    (persist_directory : string) :
  let hf := HuggingFaceEmbeddingsInit "all-MiniLM-L6-v2" in
  (∀ e, hf_embeddings_check w "all-MiniLM-L6-v2" = Some e →
     retrieve_documents w query top_k persist_directory = ([hf], Raise e))
  ∧ (∀ e, hf_embeddings_check w "all-MiniLM-L6-v2" = None →
     chroma_check w persist_directory = Some e →
     retrieve_documents w query top_k persist_directory
     = ([hf; ChromaInit persist_directory], Raise e))
  ∧ (hf_embeddings_check w "all-MiniLM-L6-v2" = None →
     chroma_check w persist_directory = None →
     retrieve_documents w query top_k persist_directory
     = ([hf; ChromaInit persist_directory; SimilaritySearch query top_k],
        similarity_search_with_score w persist_directory query top_k)).
Proof.
  intros hf. unfold retrieve_documents, get_embeddings, call, bind, ret.
  repeat split.
  - intros e ->. done.
  - intros e -> ->. done.
  - intros -> ->. simpl.
    by destruct (similarity_search_with_score w _ _ _).
Qed.

Lemma retrieve_documents_steps_witness :
  retrieve_documents Demo.no_index "What is RAG?" 5 "./chroma_db"
  = ([HuggingFaceEmbeddingsInit "all-MiniLM-L6-v2"; ChromaInit "./chroma_db"],
     Raise (Exception "InternalError" "could not open the collection"))
  ∧ retrieve_documents Demo.empty_index "What is RAG?" 5 "./chroma_db"
  = ([HuggingFaceEmbeddingsInit "all-MiniLM-L6-v2"; ChromaInit "./chroma_db";
      SimilaritySearch "What is RAG?" 5],
     Ok []).
Proof.
  split.
  - apply (proj1 (proj2 (retrieve_documents_steps Demo.no_index "What is RAG?"
                           5 "./chroma_db"))); reflexivity.
  - apply (proj2 (proj2 (retrieve_documents_steps Demo.empty_index
                           "What is RAG?" 5 "./chroma_db"))); reflexivity.
Defined.

(** X8: [store_documents] prints its [Stored ...] line exactly when it
    returns, that is when both the embedding model and the store were
    built; and it builds the store only after the embedding model, in the
    directory and with the number of chunks it was given. *)
Theorem store_documents_reports_only_success (w : world)
    (chunks : list Document) (persist_directory : string) :
  let line :=
    Print ("Stored " +:+ pretty (length chunks) +:+ " chunks in ChromaDB at "
           +:+ persist_directory) in
  (line ∈ trace (store_documents w chunks persist_directory)
   ↔ outcome (store_documents w chunks persist_directory) = Ok tt)
  ∧ (∀ p n, ChromaFromDocuments p n
            ∈ trace (store_documents w chunks persist_directory) →
       hf_embeddings_check w "all-MiniLM-L6-v2" = None
       ∧ p = persist_directory ∧ n = length chunks).
Proof.
  intros line. subst line.
  unfold store_documents, get_embeddings, call, print, bind, trace, outcome.
  destruct (hf_embeddings_check w _) as [e|]; simpl.
  { split; [split; [|done]|].
    - intros Hin. apply list_elem_of_singleton in Hin. discriminate.
    - intros p n Hin. apply list_elem_of_singleton in Hin. discriminate. }
  destruct (chroma_from_documents w chunks persist_directory) as [e|]; simpl.
  - split; [split; [|done]|].
    + intros Hin.
      repeat (apply elem_of_cons in Hin as [Hin|Hin]; [discriminate|]).
      by apply elem_of_nil in Hin.
    + intros p n Hin.
      apply elem_of_cons in Hin as [Hin|Hin]; [discriminate|].
      apply list_elem_of_singleton in Hin. by injection Hin as -> ->.
  - split; [split; [done|]|].
    + intros _. do 2 right. by left.
    + intros p n Hin.
      apply elem_of_cons in Hin as [Hin|Hin]; [discriminate|].
      apply elem_of_cons in Hin as [Hin|Hin]; [by injection Hin as -> ->|].
      apply list_elem_of_singleton in Hin. discriminate.
Qed.

(** X9: the ways [query_ollama] raises: an error of the HTTP call itself
    propagates; on status 200, so does the error of decoding a body that
    is not JSON, a body that decodes to anything but an object raises
    [TypeError] (for a list: [list indices must be integers or slices,
    not str]), and an object without a [response] field raises
    [KeyError]. *)
Theorem query_ollama_failures (w : world) (prompt model : string) :
  let post := RequestsPost ollama_url model prompt in
  (∀ e, requests_post w ollama_url model prompt = Raise e →
     query_ollama w prompt model = ([post], Raise e))
  ∧ (∀ response, requests_post w ollama_url model prompt = Ok response →
     status_code response = 200%Z →
     (∀ e, json response = Raise e →
        query_ollama w prompt model = ([post], Raise e))
     ∧ (json response = Ok JArray →
        query_ollama w prompt model
        = ([post],
           Raise (Exception "TypeError"
                    "list indices must be integers or slices, not str")))
     ∧ (∀ body, json response = Ok body →
        (∀ fields, body ≠ JObject fields) →
        ∃ msg, query_ollama w prompt model
               = ([post], Raise (Exception "TypeError" msg)))
     ∧ (∀ fields, json response = Ok (JObject fields) →
        fields !! "response" = None →
        query_ollama w prompt model
        = ([post], Raise (Exception "KeyError" "'response'")))).
Proof.
  intros post. unfold query_ollama, call, bind, lift, ret. split.
  - by intros e ->.
  - intros response -> H200. destruct (decide _) as [_|Hne]; [|done].
    repeat split.
    + by intros e ->.
    + by intros ->.
    + intros body -> Hbody.
      destruct body as [fields| | | | | |]; simpl; try by eexists.
      by destruct (Hbody fields).
    + intros fields -> Hnone. simpl. by rewrite Hnone.
Qed.

Lemma query_ollama_failures_witness :
  query_ollama Demo.refused "Why?" "llama3:8b"
  = ([RequestsPost ollama_url "llama3:8b" "Why?"],
     Raise (Exception "ConnectionError" "Connection refused"))
  ∧ query_ollama Demo.no_field "Why?" "llama3:8b"
  = ([RequestsPost ollama_url "llama3:8b" "Why?"],
     Raise (Exception "KeyError" "'response'"))
  ∧ query_ollama Demo.list_body "Why?" "llama3:8b"
  = ([RequestsPost ollama_url "llama3:8b" "Why?"],
     Raise (Exception "TypeError"
              "list indices must be integers or slices, not str")).
Proof.
  split; [|split].
  - apply (proj1 (query_ollama_failures Demo.refused "Why?" "llama3:8b")).
    reflexivity.
  - apply (proj2 (proj2 (proj2 (proj2 (query_ollama_failures Demo.no_field
                                         "Why?" "llama3:8b") _ eq_refl eq_refl)))
             {["error" := VStr "no model"]}); reflexivity.
  - apply (proj1 (proj2 (proj2 (query_ollama_failures Demo.list_body "Why?"
                                  "llama3:8b") _ eq_refl eq_refl))).
    reflexivity.
Defined.

Lemma length_omap_le {A B} (f : A → option B) (l : list A) :
  (length (omap f l) ≤ length l)%nat.
Proof.
  induction l as [|x l IH]; simpl; [lia|].
  destruct (f x); simpl; [apply le_n_S|apply le_S]; exact IH.
Qed.

(** X10: when retrieval succeeds and the generation service answers with
    a status other than 200, [rag_query] does not fail: it returns a
    normal result whose answer is the error text and whose sources are
    those of the retrieved chunks. *)
Theorem rag_query_service_error_is_answer (w : world)
    (user_query model : string) (top_k : Z) (t : list event)
    (relevant_docs : list (Document * float)) (response : Response) :
  retrieve_documents w user_query top_k "./chroma_db" = (t, Ok relevant_docs) →
  (∀ doc score v, (doc, score) ∈ relevant_docs →
     metadata doc !! "source" = Some v → ∃ s, v = VStr s) →
  (∀ prompt, requests_post w ollama_url model prompt = Ok response) →
  status_code response ≠ 200%Z →
  ∃ srcs,
    outcome (rag_query w user_query model top_k)
    = Ok {| answer := VStr ("Error: " +:+ text response); sources := srcs |}
    ∧ ∀ s, s ∈ srcs ↔ ∃ doc score, (doc, score) ∈ relevant_docs
                                   ∧ metadata doc !! "source" = Some s.
Proof.
  intros Hret Hstr Hpost Hstatus.
  destruct (RagQuerySpec.format_sources_total
              (iterate (set_of (omap source_of relevant_docs))) 0 [])
    as [citations Hfmt].
  { intros v Hv. apply RagQuerySpec.elem_of_iterate_set_of, list_elem_of_omap in Hv
      as [[doc score] [Hin Hsrc]].
    eauto. }
  exists (iterate (set_of (omap source_of relevant_docs))). split.
  - rewrite (RagQuerySpec.rag_query_after_retrieval w _ model _ _ _ _ Hret Hfmt).
    unfold outcome at 1. simpl.
    unfold query_ollama, call, bind, ret, outcome. rewrite Hpost.
    by destruct (decide _).
  - intros s. rewrite RagQuerySpec.elem_of_iterate_set_of, list_elem_of_omap.
    split.
    + intros [[doc score] [Hin Hsrc]]. by exists doc, score.
    + intros (doc & score & Hin & Hsrc). by exists (doc, score).
Qed.

Lemma rag_query_service_error_is_answer_witness :
  ∃ srcs,
    outcome (rag_query Demo.service_down "What is RAG?" "llama3:8b" 5)
    = Ok {| answer := VStr "Error: model is loading"; sources := srcs |}
    ∧ ∀ s, s ∈ srcs ↔
           ∃ doc score,
             (doc, score) ∈ [(Demo.stored Demo.notes "notes.txt" 0, 1%Z);
                             (Demo.scrap, 2%Z);
                             (Demo.stored Demo.notes "notes.txt" 0, 3%Z);
                             (Demo.stored Demo.slides "slides.pdf" 1, 4%Z)]
             ∧ metadata doc !! "source" = Some s.
Proof.
  apply (rag_query_service_error_is_answer Demo.service_down "What is RAG?"
           "llama3:8b" 5
           [HuggingFaceEmbeddingsInit "all-MiniLM-L6-v2";
            ChromaInit "./chroma_db"; SimilaritySearch "What is RAG?" 5]
           _ Demo.unavailable).
  - reflexivity.
  - intros doc score v Hin Hsrc.
    repeat (apply elem_of_cons in Hin as [Hin|Hin];
            [injection Hin as -> _; vm_compute in Hsrc;
             try discriminate; injection Hsrc as <-; by eexists|]).
    by apply elem_of_nil in Hin.
  - reflexivity.
  - vm_compute. discriminate.
Defined.

(** X11: when a retrieved chunk carries an integer as its [source],
    [rag_query] raises [TypeError] while it formats the citations: no
    prompt is built and no generation request is sent. *)
Theorem rag_query_integer_source_raises (w : world) (user_query model : string)
    (top_k : Z) (t : list event) (relevant_docs : list (Document * float))
    (doc : Document) (score : float) (n : Z) :
  retrieve_documents w user_query top_k "./chroma_db" = (t, Ok relevant_docs) →
  (doc, score) ∈ relevant_docs →
  metadata doc !! "source" = Some (VInt n) →
  rag_query w user_query model top_k = (t, Raise type_error).
Proof.
  intros Hret Hin Hsrc. unfold rag_query. rewrite Hret.
  unfold bind at 1. rewrite RagQuerySpec.collect_eq. cbv beta iota zeta.
  rewrite (format_sources_int_source _ 0 [] n).
  - simpl. by rewrite app_nil_r.
  - apply RagQuerySpec.elem_of_iterate_set_of, list_elem_of_omap.
    by exists (doc, score).
Qed.

Lemma rag_query_integer_source_raises_witness :
  rag_query Demo.odd_index "What is RAG?" "llama3:8b" 5
  = ([HuggingFaceEmbeddingsInit "all-MiniLM-L6-v2"; ChromaInit "./chroma_db";
      SimilaritySearch "What is RAG?" 5],
     Raise type_error).
Proof.
  apply (rag_query_integer_source_raises Demo.odd_index "What is RAG?"
           "llama3:8b" 5 _ [(Demo.numbered, 1%Z)] Demo.numbered 1%Z 7%Z).
  - reflexivity.
  - by left.
  - reflexivity.
Defined.

(** X12: [rag_query] never returns more sources than retrieval returned
    chunks. *)
Theorem rag_query_sources_bounded (w : world) (user_query model : string)
    (top_k : Z) (t0 t : list event) (relevant_docs : list (Document * float))
    (result : RagAnswer) :
  retrieve_documents w user_query top_k "./chroma_db" = (t0, Ok relevant_docs) →
  rag_query w user_query model top_k = (t, Ok result) →
  (length (sources result) ≤ length relevant_docs)%nat.
Proof.
  intros Hret Hrun. unfold rag_query in Hrun. rewrite Hret in Hrun.
  unfold bind at 1 in Hrun. rewrite RagQuerySpec.collect_eq in Hrun.
  cbv beta iota zeta in Hrun.
  destruct (format_sources 0 _ []) as [citations|e]; simpl in Hrun;
    [|discriminate].
  destruct (query_ollama w _ model) as [tq [a|e]]; simpl in Hrun;
    [|discriminate].
  injection Hrun as _ <-. simpl.
  etrans; [|apply (length_omap_le source_of)].
  apply submseteq_length, NoDup_submseteq; [apply NoDup_elements|].
  intros s. by rewrite RagQuerySpec.elem_of_iterate_set_of.
Qed.

Lemma rag_query_sources_bounded_witness :
  ∃ result,
    outcome (rag_query Demo.up "What is RAG?" "llama3:8b" 5) = Ok result
    ∧ (length (sources result) ≤ 4)%nat.
Proof.
  eexists. split; [vm_compute; reflexivity|].
  eapply (rag_query_sources_bounded Demo.up "What is RAG?" "llama3:8b" 5 _ _
            [(Demo.stored Demo.notes "notes.txt" 0, 1%Z); (Demo.scrap, 2%Z);
             (Demo.stored Demo.notes "notes.txt" 0, 3%Z);
             (Demo.stored Demo.slides "slides.pdf" 1, 4%Z)]).
  - vm_compute. reflexivity.
  - vm_compute. reflexivity.
Defined.

(** X13: the citation loop gives one label per source, in the order it
    iterates, numbered from 1: [[1] name, [2] name, ...], each name the
    base name of the source. *)
Theorem format_sources_numbers_from_one (names : list string) :
  format_sources 0 (VStr <$> names) []
  = Ok (imap (λ j name,
                "[" +:+ pretty (j + 1)%nat +:+ "] " +:+ basename_str name)
          names).
Proof. by rewrite format_sources_from. Qed.

End RagQueryMore.

(** ** More on main.py *)

Module MainMore.
Import DocumentProcessor EmbeddingStorage RagQuery Main.

(** Walks a composed computation, leaving one goal per external call. *)
Ltac forall_trace :=
  repeat first
    [ apply Forall_nil
    | apply Facts.Forall_trace_nil
    | apply Facts.Forall_trace_call
    | apply Facts.Forall_trace_try_except; [|intros ?]
    | apply Facts.Forall_trace_bind; [|intros ? ?]
    | match goal with
      | |- Forall _ (trace (let '(_, _) := ?a in _)) => destruct a
      end ].

Section Lemmas.

Context (w : world).

(** Loading and splitting touch neither the embedding model nor the store. *)
Lemma process_directory_no_store directory_path chunk_size chunk_overlap :
  Forall (λ ev, (∀ p n, ev ≠ ChromaFromDocuments p n)
                ∧ (∀ name, ev ≠ HuggingFaceEmbeddingsInit name))
    (trace (process_directory w directory_path chunk_size chunk_overlap)).
Proof.
  unfold process_directory, load_documents, split_documents, print.
  forall_trace; by split.
Qed.

Lemma store_documents_directory chunks persist_directory :
  Forall (λ ev, ∀ p n, ev = ChromaFromDocuments p n → p = persist_directory)
    (trace (store_documents w chunks persist_directory)).
Proof.
  unfold store_documents, get_embeddings, print.
  forall_trace; intros p n Heq; by inversion Heq.
Qed.

(** Printing a result only prints. *)
Lemma print_sources_prints l : ∀ i,
  Forall (λ ev, ∃ line, ev = Print line) (trace (print_sources i l)).
Proof.
  induction l as [|source rest IH]; intros i; simpl; [constructor|].
  destruct (basename source) as [name|e]; simpl; [|constructor].
  specialize (IH (S i)). destruct (print_sources (S i) rest) as [t' r].
  simpl in *. constructor; [by eexists|done].
Qed.

Lemma print_result_prints result :
  Forall (λ ev, ∃ line, ev = Print line) (trace (print_result result)).
Proof.
  unfold print_result, print.
  forall_trace; first [by eexists|apply print_sources_prints].
Qed.

End Lemmas.

(** X14: [main.py process] on a path that is not a directory prints the
    error and returns: nothing is loaded, split or stored, and the
    process ends with status 0. *)
Theorem main_process_missing_directory (w : world) (directory : string)
    (chunk_size chunk_overlap : Z) (db_path : string) :
  isdir w directory = false →
  main w (ArgsProcess directory chunk_size chunk_overlap db_path)
  = ([IsDir directory;
      Print ("Error: Directory " +:+ directory +:+ " does not exist")],
     Ok tt)
  ∧ exit_status (main w (ArgsProcess directory chunk_size chunk_overlap db_path))
    = 0%Z.
Proof.
  intros Hdir. unfold exit_status, outcome, main, call, bind, print.
  by rewrite Hdir.
Qed.

Lemma main_process_missing_directory_witness :
  main Demo.up (ArgsProcess "nowhere" 1000 200 "./chroma_db")
  = ([IsDir "nowhere"; Print "Error: Directory nowhere does not exist"], Ok tt)
  ∧ exit_status (main Demo.up (ArgsProcess "nowhere" 1000 200 "./chroma_db"))
    = 0%Z.
Proof.
  apply (main_process_missing_directory Demo.up "nowhere" 1000 200 "./chroma_db").
  reflexivity.
Defined.

(** X15: when processing yields no chunk, [main.py process] prints
    [No documents were processed.] and returns without building the
    embedding model or the store. *)
Theorem main_process_nothing_to_store (w : world) (directory : string)
    (chunk_size chunk_overlap : Z) (db_path : string) (t : list event) :
  isdir w directory = true →
  process_directory w directory chunk_size chunk_overlap = (t, Ok []) →
  main w (ArgsProcess directory chunk_size chunk_overlap db_path)
  = (IsDir directory :: t ++ [Print "No documents were processed."], Ok tt)
  ∧ Forall (λ ev, (∀ p n, ev ≠ ChromaFromDocuments p n)
                  ∧ (∀ name, ev ≠ HuggingFaceEmbeddingsInit name))
      (trace (main w (ArgsProcess directory chunk_size chunk_overlap db_path))).
Proof.
  intros Hdir Hproc.
  assert (Hrun : main w (ArgsProcess directory chunk_size chunk_overlap db_path)
                 = (IsDir directory :: t ++ [Print "No documents were processed."],
                    Ok tt)).
  { unfold main, call, bind at 1. rewrite Hdir. simpl. by rewrite Hproc. }
  split; [done|]. rewrite Hrun. simpl.
  pose proof (process_directory_no_store w directory chunk_size chunk_overlap)
    as Hno.
  rewrite Hproc in Hno. simpl in Hno.
  constructor; [by split|]. apply Forall_app. split; [done|].
  by repeat constructor.
Qed.

Lemma main_process_nothing_to_store_witness :
  main Demo.empty_directory (ArgsProcess "docs" 1000 200 "./chroma_db")
  = (IsDir "docs"
       :: [Print "Processing documents in docs...";
           DirectoryLoaderLoad "docs" "**/*.pdf"; Print "Loaded PDF documents";
           DirectoryLoaderLoad "docs" "**/*.txt"; Print "Loaded text documents";
           Print "Loaded 0 documents";
           TextSplitterInit 1000 200; TextSplitterSplit 0;
           Print "Created 0 chunks"]
       ++ [Print "No documents were processed."],
     Ok tt)
  ∧ Forall (λ ev, (∀ p n, ev ≠ ChromaFromDocuments p n)
                  ∧ (∀ name, ev ≠ HuggingFaceEmbeddingsInit name))
      (trace (main Demo.empty_directory
                (ArgsProcess "docs" 1000 200 "./chroma_db"))).
Proof.
  apply (main_process_nothing_to_store Demo.empty_directory "docs" 1000 200
           "./chroma_db").
  - reflexivity.
  - vm_compute. reflexivity.
Defined.

(** X16: [main.py process] builds a store nowhere but in the directory
    given as [--db-path]. *)
Theorem main_process_stores_at_db_path (w : world) (directory : string)
    (chunk_size chunk_overlap : Z) (db_path : string) :
  Forall (λ ev, ∀ p n, ev = ChromaFromDocuments p n → p = db_path)
    (trace (main w (ArgsProcess directory chunk_size chunk_overlap db_path))).
Proof.
  unfold main. apply Facts.Forall_trace_bind.
  { apply Facts.Forall_trace_call. intros p n Heq. discriminate. }
  intros exists_ _. destruct (negb exists_).
  { apply Facts.Forall_trace_call. intros p n Heq. discriminate. }
  apply Facts.Forall_trace_bind.
  - eapply Forall_impl; [apply process_directory_no_store|].
    intros ev [Hno _] p n Heq. by destruct (Hno p n).
  - intros chunks _. destruct chunks.
    + apply Facts.Forall_trace_call. intros p n Heq. discriminate.
    + apply store_documents_directory.
Qed.

(** X17: [main.py query] checks that [--db-path] is a directory and then
    never uses it: the only store it opens is [./chroma_db], and it does
    open that one once the check passes and the embedding model loads. *)
Theorem main_query_opens_default_store (w : world) (query model : string)
    (top_k : Z) (db_path : string) :
  Forall (λ ev, ∀ dir, ev = ChromaInit dir → dir = "./chroma_db")
    (trace (main w (ArgsQuery query model top_k db_path)))
  ∧ (isdir w db_path = true →
     hf_embeddings_check w "all-MiniLM-L6-v2" = None →
     ChromaInit "./chroma_db"
     ∈ trace (main w (ArgsQuery query model top_k db_path))).
Proof.
  split.
  - unfold main. apply Facts.Forall_trace_bind.
    { apply Facts.Forall_trace_call. intros dir Heq. discriminate. }
    intros exists_ _. destruct (negb exists_).
    { apply Facts.Forall_trace_call. intros dir Heq. discriminate. }
    apply Facts.Forall_trace_bind.
    + apply Forall_forall. intros ev Hin dir ->.
      apply RagQueryMore.rag_query_events in Hin
        as [Heq|[Heq|[Heq|[prompt Heq]]]]; by inversion Heq.
    + intros result _.
      eapply Forall_impl; [apply print_result_prints|].
      intros ev [line ->] dir Heq. discriminate.
  - intros Hdir Hhf. unfold main.
    rewrite Facts.trace_bind. unfold outcome at 1, call at 2. simpl snd.
    rewrite Hdir. simpl negb. cbv iota.
    apply elem_of_app. right. rewrite Facts.trace_bind.
    apply elem_of_app. left.
    unfold rag_query. rewrite Facts.trace_bind. apply elem_of_app. left.
    unfold retrieve_documents, get_embeddings. rewrite Hhf.
    rewrite Facts.trace_bind. apply elem_of_app. right.
    unfold outcome at 1, call at 2, check at 1. simpl snd. cbv iota.
    rewrite Facts.trace_bind. apply elem_of_app. left. by left.
Qed.

Lemma main_query_opens_default_store_witness :
  Forall (λ ev, ∀ dir, ev = ChromaInit dir → dir = "./chroma_db")
    (trace (main Demo.up (ArgsQuery "What is RAG?" "llama3:8b" 5 "docs")))
  ∧ ChromaInit "./chroma_db"
    ∈ trace (main Demo.up (ArgsQuery "What is RAG?" "llama3:8b" 5 "docs")).
Proof.
  destruct (main_query_opens_default_store Demo.up "What is RAG?" "llama3:8b"
              5 "docs") as [Honly Hopens].
  split; [exact Honly|]. apply Hopens; reflexivity.
Defined.

(** X18: after a successful query, [main.py query] prints the answer,
    then one line per returned source, numbered from 1 and showing the
    base name of the source. *)
Theorem main_query_prints_numbered_sources (w : world) (query model : string)
    (top_k : Z) (db_path : string) (t : list event) (a : value)
    (names : list string) :
  isdir w db_path = true →
  rag_query w query model top_k
  = (t, Ok {| answer := a; sources := VStr <$> names |}) →
  main w (ArgsQuery query model top_k db_path)
  = (IsDir db_path
       :: t
       ++ [Print (nl +:+ "Answer:"); Print (str a); Print (nl +:+ "Sources:")]
       ++ imap (λ j name,
                  Print ("[" +:+ pretty (j + 1)%nat +:+ "] "
                         +:+ basename_str name))
            names,
     Ok tt).
Proof.
  intros Hdir Hrun. unfold main, call, bind at 1. rewrite Hdir. simpl negb.
  cbv iota. rewrite Hrun. unfold print_result, bind at 1. simpl sources.
  rewrite (RagQueryMore.print_sources_from names 0).
  unfold print, call, bind. simpl. done.
Qed.

Lemma main_query_prints_numbered_sources_witness :
  main Demo.up (ArgsQuery "What is RAG?" "llama3:8b" 5 "./chroma_db")
  = (IsDir "./chroma_db"
       :: trace (rag_query Demo.up "What is RAG?" "llama3:8b" 5)
       ++ [Print (nl +:+ "Answer:"); Print "Retrieval first.";
           Print (nl +:+ "Sources:")]
       ++ [Print "[1] notes.txt"; Print "[2] slides.pdf"],
     Ok tt).
Proof.
  apply (main_query_prints_numbered_sources Demo.up "What is RAG?" "llama3:8b"
           5 "./chroma_db" _ (VStr "Retrieval first.")
           ["docs/week1/notes.txt"; "docs/slides.pdf"]).
  - reflexivity.
  - vm_compute. reflexivity.
Defined.

(** X19: when the text splitter's constructor rejects the chunk
    parameters, [main.py process] ends with an uncaught exception and
    nothing is stored: neither the embedding model nor the store is
    built. *)
Theorem main_process_splitter_rejects (w : world) (directory : string)
    (chunk_size chunk_overlap : Z) (db_path : string) (e : exn) :
  isdir w directory = true →
  text_splitter_check w chunk_size chunk_overlap separators = Some e →
  (∃ e', outcome (main w (ArgsProcess directory chunk_size chunk_overlap db_path))
         = Raise e')
  ∧ Forall (λ ev, (∀ p n, ev ≠ ChromaFromDocuments p n)
                  ∧ (∀ name, ev ≠ HuggingFaceEmbeddingsInit name))
      (trace (main w (ArgsProcess directory chunk_size chunk_overlap db_path))).
Proof.
  intros Hdir Hcheck.
  assert (Hproc : ∃ e', outcome (process_directory w directory chunk_size
                                   chunk_overlap) = Raise e').
  { unfold process_directory.
    rewrite Facts.outcome_print_bind, Facts.outcome_bind.
    destruct (outcome (load_documents w directory)) as [documents|e'];
      [|by eexists].
    rewrite Facts.outcome_print_bind, Facts.outcome_bind.
    unfold split_documents.
    rewrite Facts.outcome_bind, Facts.outcome_call, Hcheck.
    by eexists. }
  destruct Hproc as [e' Hproc].
  unfold main.
  rewrite Facts.outcome_bind, Facts.trace_bind, !Facts.outcome_call,
    Facts.trace_call, Hdir.
  simpl negb. cbv iota.
  rewrite Facts.outcome_bind, Facts.trace_bind, Hproc.
  split; [by eexists|].
  apply Forall_app. split; [by repeat constructor|].
  rewrite app_nil_r. apply process_directory_no_store.
Qed.

Lemma main_process_splitter_rejects_witness :
  (∃ e', outcome (main Demo.up (ArgsProcess "docs" 5 7 "./chroma_db"))
         = Raise e')
  ∧ Forall (λ ev, (∀ p n, ev ≠ ChromaFromDocuments p n)
                  ∧ (∀ name, ev ≠ HuggingFaceEmbeddingsInit name))
      (trace (main Demo.up (ArgsProcess "docs" 5 7 "./chroma_db"))).
Proof.
  apply (main_process_splitter_rejects Demo.up "docs" 5 7 "./chroma_db"
           (Exception "ValueError"
              "Got a larger chunk overlap (7) than chunk size (5), should be smaller."));
    reflexivity.
Defined.

(** X20: when retrieval succeeds but the HTTP call to the generation
    service raises, [main.py query] prints nothing after it: the error
    leaves [main] uncaught and the process ends with status 1. *)
Theorem main_query_generation_unreachable (w : world) (query model : string)
    (top_k : Z) (db_path : string) (t : list event)
    (relevant_docs : list (Document * float)) (cls msg : string) :
  isdir w db_path = true →
  retrieve_documents w query top_k "./chroma_db" = (t, Ok relevant_docs) →
  (∀ doc score v, (doc, score) ∈ relevant_docs →
     metadata doc !! "source" = Some v → ∃ s, v = VStr s) →
  (∀ prompt, requests_post w ollama_url model prompt
             = Raise (Exception cls msg)) →
  ∃ prompt,
    main w (ArgsQuery query model top_k db_path)
    = (IsDir db_path :: t ++ [RequestsPost ollama_url model prompt],
       Raise (Exception cls msg))
    ∧ exit_status (main w (ArgsQuery query model top_k db_path)) = 1%Z.
Proof.
  intros Hdir Hret Hstr Hpost.
  destruct (RagQuerySpec.format_sources_total
              (iterate (set_of (omap source_of relevant_docs))) 0 [])
    as [citations Hfmt].
  { intros v Hv. apply RagQuerySpec.elem_of_iterate_set_of, list_elem_of_omap in Hv
      as [[doc score] [Hin Hsrc]].
    eauto. }
  pose proof (RagQuerySpec.rag_query_after_retrieval w _ model _ _ _ _ Hret Hfmt)
    as Hrun. cbv zeta in Hrun.
  exists (prompt_template
            (join (nl +:+ nl) (context_block ∘ fst <$> relevant_docs))
            (join ", " citations) query).
  assert (Hmain : main w (ArgsQuery query model top_k db_path)
                  = (IsDir db_path
                       :: t ++ [RequestsPost ollama_url model
                                  (prompt_template
                                     (join (nl +:+ nl)
                                        (context_block ∘ fst <$> relevant_docs))
                                     (join ", " citations) query)],
                     Raise (Exception cls msg))).
  { unfold main, call, bind at 1. rewrite Hdir. simpl negb. cbv iota.
    rewrite Hrun. unfold query_ollama, call, bind, outcome.
    rewrite Hpost. simpl. by rewrite ?app_nil_r. }
  split; [exact Hmain|]. by rewrite Hmain.
Qed.

Lemma main_query_generation_unreachable_witness :
  ∃ prompt,
    main Demo.refused (ArgsQuery "What is RAG?" "llama3:8b" 5 "./chroma_db")
    = (IsDir "./chroma_db"
         :: [HuggingFaceEmbeddingsInit "all-MiniLM-L6-v2";
             ChromaInit "./chroma_db"; SimilaritySearch "What is RAG?" 5]
         ++ [RequestsPost ollama_url "llama3:8b" prompt],
       Raise (Exception "ConnectionError" "Connection refused"))
    ∧ exit_status
        (main Demo.refused (ArgsQuery "What is RAG?" "llama3:8b" 5 "./chroma_db"))
      = 1%Z.
Proof.
  apply (main_query_generation_unreachable Demo.refused "What is RAG?"
           "llama3:8b" 5 "./chroma_db" _
           [(Demo.stored Demo.notes "notes.txt" 0, 1%Z); (Demo.scrap, 2%Z);
            (Demo.stored Demo.notes "notes.txt" 0, 3%Z);
            (Demo.stored Demo.slides "slides.pdf" 1, 4%Z)]).
  - reflexivity.
  - reflexivity.
  - intros doc score v Hin Hsrc.
    repeat (apply elem_of_cons in Hin as [Hin|Hin];
            [injection Hin as -> _; vm_compute in Hsrc;
             try discriminate; injection Hsrc as <-; by eexists|]).
    by apply elem_of_nil in Hin.
  - reflexivity.
Defined.

End MainMore.

(** ** More on interactive.py *)

Module InteractiveMore.
Import RagQuery Interactive.

(** X21: the loop stops at the first line that is an exit keyword in any
    letter case: whatever standard input holds after it is never read. *)
Theorem interactive_loop_stops_at_exit (w : world) (model : string) (top_k : Z)
    (questions : list string) (line : string) (rest : list string) :
  Forall (λ q, lower q ∉ ["exit"; "quit"; "q"]) questions →
  lower line ∈ ["exit"; "quit"; "q"] →
  interactive_loop w model top_k (questions ++ line :: rest)
  = interactive_loop w model top_k (questions ++ [line]).
Proof.
  intros Hqs Hline. induction Hqs as [|q qs Hq Hqs IH]; simpl.
  - by rewrite !bool_decide_eq_true_2.
  - rewrite !bool_decide_eq_false_2 by done. by rewrite IH.
Qed.

Lemma interactive_loop_stops_at_exit_witness :
  interactive_loop Demo.up "llama3:8b" 5 ["What is RAG?"; "EXIT"; "ignored"]
  = interactive_loop Demo.up "llama3:8b" 5 ["What is RAG?"; "EXIT"].
Proof.
  apply (interactive_loop_stops_at_exit Demo.up "llama3:8b" 5
           ["What is RAG?"] "EXIT" ["ignored"]).
  - repeat constructor. vm_compute. intros Hin.
    repeat (apply elem_of_cons in Hin as [Hin|Hin]; [discriminate|]).
    by apply elem_of_nil in Hin.
  - vm_compute. by left.
Defined.

(** X22: the loop returns normally only after reading an exit keyword;
    otherwise it ends with an exception (of a query, or [EOFError] once
    standard input is used up). *)
Theorem interactive_loop_returns_on_exit_only (w : world) (model : string)
    (top_k : Z) (stdin : list string) :
  outcome (interactive_loop w model top_k stdin) = Ok tt →
  ∃ line, line ∈ stdin ∧ lower line ∈ ["exit"; "quit"; "q"].
Proof.
  induction stdin as [|q rest IH]; cbn [interactive_loop]; [discriminate|].
  rewrite Facts.outcome_bind, Facts.outcome_call.
  destruct (bool_decide (lower q ∈ ["exit"; "quit"; "q"])) eqn:Hq.
  - intros _. exists q. split; [by left|]. by apply bool_decide_eq_true in Hq.
  - rewrite Facts.outcome_print_bind, Facts.outcome_bind.
    destruct (outcome (rag_query w q model top_k)) as [result|e];
      [|discriminate].
    rewrite Facts.outcome_bind.
    destruct (outcome (print_result result)) as [[]|e]; [|discriminate].
    intros Hrest. destruct (IH Hrest) as (line & Hin & Hkw).
    exists line. split; [by right|done].
Qed.

Lemma interactive_loop_returns_on_exit_only_witness :
  ∃ line, line ∈ ["What is RAG?"; "Quit"] ∧ lower line ∈ ["exit"; "quit"; "q"].
Proof.
  apply (interactive_loop_returns_on_exit_only Demo.up "llama3:8b" 5
           ["What is RAG?"; "Quit"]).
  vm_compute. reflexivity.
Defined.

(** X23: interactive mode shows its [db_path] argument in the banner and
    never uses it for retrieval: the run begins with the four banner
    lines, the third being [Database: ] followed by [db_path], and
    whatever is typed, the only store it opens is [./chroma_db]. *)
Theorem interactive_mode_opens_default_store (w : world) (model : string)
    (top_k : Z) (db_path : string) (stdin : list string) :
  let LF := String "010" EmptyString in
  (∃ rest,
     trace (interactive_mode w model top_k db_path stdin)
     = [Print (LF +:+ "=== Educational RAG System Interactive Mode ===");
        Print ("Using model: " +:+ model);
        Print ("Database: " +:+ db_path);
        Print ("Type " +:+ String "034" ("exit" +:+ String "034" (" to quit" +:+ LF)))]
       ++ rest)
  ∧ Forall (λ ev, ∀ dir, ev = ChromaInit dir → dir = "./chroma_db")
      (trace (interactive_mode w model top_k db_path stdin)).
Proof.
  intros LF.
  assert (Hloop : Forall (λ ev, ∀ dir, ev = ChromaInit dir → dir = "./chroma_db")
                    (trace (interactive_loop w model top_k stdin))).
  { induction stdin as [|q rest IH]; cbn [interactive_loop].
    - apply Facts.Forall_trace_call. intros dir Heq. discriminate.
    - apply Facts.Forall_trace_bind.
      { apply Facts.Forall_trace_call. intros dir Heq. discriminate. }
      intros _ _. destruct (bool_decide _); [constructor|].
      apply Facts.Forall_trace_bind.
      { apply Facts.Forall_trace_call. intros dir Heq. discriminate. }
      intros _ _. apply Facts.Forall_trace_bind.
      { apply Forall_forall. intros ev Hin dir ->.
        apply RagQueryMore.rag_query_events in Hin
          as [Heq|[Heq|[Heq|[prompt Heq]]]]; by inversion Heq. }
      intros result _. apply Facts.Forall_trace_bind; [|done].
      eapply Forall_impl; [apply MainMore.print_result_prints|].
      intros ev [line ->] dir Heq. discriminate. }
  split.
  - exists (trace (interactive_loop w model top_k stdin)).
    unfold interactive_mode, print, call, bind, trace.
    by destruct (interactive_loop w model top_k stdin).
  - unfold interactive_mode.
    repeat (apply Facts.Forall_trace_bind;
            [apply Facts.Forall_trace_call; intros dir Heq; discriminate
            |intros _ _]).
    exact Hloop.
Qed.

(** X24: started on a path that is not a directory, interactive.py prints
    the error and exits with status 1 without reading standard input. *)
Theorem script_missing_db_exits_one (w : world) (model : string) (top_k : Z)
    (db_path : string) (stdin : list string) :
  isdir w db_path = false →
  script w model top_k db_path stdin
  = ([IsDir db_path;
      Print ("Error: Vector database at " +:+ db_path
             +:+ " does not exist. Process documents first.")],
     Raise (SystemExit 1))
  ∧ exit_status (script w model top_k db_path stdin) = 1%Z.
Proof.
  intros Hdir. unfold exit_status, outcome, script, call, bind, print, raise.
  by rewrite Hdir.
Qed.

Lemma script_missing_db_exits_one_witness :
  script Demo.up "llama3:8b" 5 "./missing_db" ["What is RAG?"]
  = ([IsDir "./missing_db";
      Print "Error: Vector database at ./missing_db does not exist. Process documents first."],
     Raise (SystemExit 1))
  ∧ exit_status (script Demo.up "llama3:8b" 5 "./missing_db" ["What is RAG?"])
    = 1%Z.
Proof.
  apply (script_missing_db_exits_one Demo.up "llama3:8b" 5 "./missing_db"
           ["What is RAG?"]).
  reflexivity.
Defined.

End InteractiveMore.
